(** * add-text-to-vid: a shallow embedding of the two command-line drivers

    [add-text-to-vid.py] burns timed text overlays onto a video, one
    external [ffmpeg] run per overlay; [preview-fonts.py] renders one sample
    clip per font file.  Both scripts are embedded here as Rocq functions:
    pure helpers as plain functions, fallible helpers as functions into
    [result], and the drivers in a small trace-and-exception monad whose
    trace records every call the script makes to the outside world. *)

From Stdlib Require Import String Ascii List ZArith Lia Bool Floats DecimalString.
From Stdlib Require DecimalZ DecimalPos.
Import ListNotations.

Local Open Scope list_scope.
Local Open Scope string_scope.

(** ** Python strings *)

Module PyStr.

(** [s.startswith(p)] *)
Fixpoint startswith (p s : string) : bool :=
  match p, s with
  | EmptyString, _ => true
  | String _ _, EmptyString => false
  | String a p', String b s' => Ascii.eqb a b && startswith p' s'
  end.

(** [s.split(c)] for a separator of one character: never empty, one more
    piece than there are separators. *)
Fixpoint split (c : ascii) (s : string) : list string :=
  match s with
  | EmptyString => [EmptyString]
  | String a s' =>
      if Ascii.eqb a c then EmptyString :: split c s'
      else match split c s' with
           | [] => [String a EmptyString]
           | piece :: pieces => String a piece :: pieces
           end
  end.

(** [c in s] for a character [c]. *)
Fixpoint mem (c : ascii) (s : string) : bool :=
  match s with
  | EmptyString => false
  | String a s' => Ascii.eqb a c || mem c s'
  end.

(** [s.replace(a, b)] for single characters. *)
Fixpoint replace (a b : ascii) (s : string) : string :=
  match s with
  | EmptyString => EmptyString
  | String c s' => String (if Ascii.eqb c a then b else c) (replace a b s')
  end.

Fixpoint rev_onto (s acc : string) : string :=
  match s with
  | EmptyString => acc
  | String c s' => rev_onto s' (String c acc)
  end.

(** [s.endswith(p)] *)
Definition endswith (p s : string) : bool :=
  startswith (rev_onto p EmptyString) (rev_onto s EmptyString).


(** [p in s] *)
Definition contains (p s : string) : Prop :=
  exists before after, s = before ++ p ++ after.

(** [str(n)] for an integer. *)
Definition of_Z (z : Z) : string := NilZero.string_of_int (Z.to_int z).

Definition of_nat (n : nat) : string := of_Z (Z.of_nat n).

(** The double quote and the line feed, as one-character strings. *)
Definition dquote : string := String "034"%char EmptyString.
Definition newline : string := String "010"%char EmptyString.

End PyStr.

(** ** Exceptions and results *)

(** The exceptions the two scripts can meet, by the place that raises them. *)
Inductive exn : Type :=
| IndexError                              (* [row[0]] on an empty row *)
| ValueError_unpack (fields : nat)        (* a row of [fields] fields unpacked into 7 names *)
| ValueError_int (s : string)             (* [int(s)] *)
| ValueError_float (s : string)           (* [float(s)] *)
| OSError (path : string)                 (* [open], [mkdir], [print] on [path] *)
| CalledProcessError (command : string)   (* [subprocess.run(..., check=True)] *)
| RuntimeError (message : string).        (* raised by the scripts themselves *)

Definition is_RuntimeError (e : exn) : bool :=
  match e with RuntimeError _ => true | _ => false end.

Definition is_CalledProcessError (e : exn) : bool :=
  match e with CalledProcessError _ => true | _ => false end.

(** [except Exception]: every exception above is one. *)
Definition is_Exception (e : exn) : bool := true.

Inductive result (A : Type) : Type :=
| Ok (a : A)
| Raise (e : exn).
Arguments Ok {A} a.
Arguments Raise {A} e.

Definition rbind {A B : Type} (r : result A) (k : A -> result B) : result B :=
  match r with
  | Ok a => k a
  | Raise e => Raise e
  end.

Declare Scope result_scope.
Delimit Scope result_scope with result.
Notation "'let*' x ':=' r 'in' k" := (rbind r (fun x => k))
  (at level 10, x name, r at level 100, k at level 200) : result_scope.

(** What the scripts take from the interpreter and its library: the two
    numeric constructors, the formatting of a float in an f-string, and the
    text of a library exception.  The development is parametric in them. *)
Class Builtins : Type := {
  py_int : string -> option Z;            (* [int(s)]; [None] is ValueError *)
  py_float : string -> option float;      (* [float(s)]; [None] is ValueError *)
  float_str : float -> string;            (* [f"{x}"] for a float [x] *)
  builtin_str : exn -> string             (* [str(e)] for a library exception *)
}.

(** [str(e)]: a [RuntimeError] built from a message prints as that message. *)
Definition exn_str `{Builtins} (e : exn) : string :=
  match e with
  | RuntimeError message => message
  | _ => builtin_str e
  end.

(** ** The outside world *)

(** One entry per call a script makes to the outside world, in the order the
    calls happen.  [logging.info] and [logging.debug] calls change neither
    control flow nor files and are left out.  Shell commands, the opening
    of the instruction file and the creation of the preview directory may
    fail, and so may the printing of a message; a shell command is taken
    to run and to exit, with status 0 or not; writing a text file into the
    fresh temporary directory is taken to succeed. *)
Inductive event : Type :=
| Subprocess (command : string) (ok : bool)   (* [subprocess.run(command, shell=True, check=True)] *)
| WriteFile (path content : string)           (* [open(path, 'w').write(content)] *)
| Mkdir (path : string)                       (* [Path(path).mkdir(exist_ok=True)] *)
| LogError (message : string)                 (* [logging.error(message)] *)
| Print (message : string)                    (* [print(message)] *)
| MkdirFailed (path : string)                 (* the same [mkdir], raising *)
| PrintFailed (message : string).             (* [print(message)], raising *)

(** What the world answers.  A shell command exits with status 0 or not,
    and may depend on everything that happened before it. *)
Class World : Type := {
  csv_rows : string -> option (list (list string));
      (* the rows [csv.reader] yields for a path; [None] if [open] fails *)
  shell : list event -> string -> bool;
      (* does the command exit with status 0 after this trace? *)
  tmpdirname : string;
      (* the directory [tempfile.TemporaryDirectory()] creates *)
  os_walk : string -> list (string * list string);
      (* [(root, files)] for each directory [os.walk] visits *)
  mkdir_ok : string -> bool;
      (* can [Path(path).mkdir(exist_ok=True)] make the directory, or is it
         there already?  [false] when it raises: a file of that name, a
         parent that is missing or not writable *)
  stdout_ok : list event -> string -> bool
      (* can the message be written to the standard output after this
         trace?  [false] when [print] raises: a closed pipe, a name that
         the encoding of the output cannot spell *)
}.

(** Scripts run in a monad that threads the trace and may raise. *)
Definition M (A : Type) : Type := list event -> result A * list event.

Definition ret {A : Type} (a : A) : M A := fun tr => (Ok a, tr).

Definition raise {A : Type} (e : exn) : M A := fun tr => (Raise e, tr).

Definition bind {A B : Type} (m : M A) (k : A -> M B) : M B :=
  fun tr =>
    match m tr with
    | (Ok a, tr') => k a tr'
    | (Raise e, tr') => (Raise e, tr')
    end.

Definition lift {A : Type} (r : result A) : M A := fun tr => (r, tr).

Definition emit (ev : event) : M unit := fun tr => (Ok tt, tr ++ [ev])%list.

(** [try: m  except <catches> as e: handler e] *)
Definition try_except {A : Type} (m : M A) (catches : exn -> bool)
    (handler : exn -> M A) : M A :=
  fun tr =>
    match m tr with
    | (Raise e, tr') => if catches e then handler e tr' else (Raise e, tr')
    | done => done
    end.

(** A [try] whose handler leaves the enclosing function: the caller sees
    either the value or the exception that was caught. *)
Definition attempt {A : Type} (m : M A) (catches : exn -> bool) : M (A + exn) :=
  try_except (bind m (fun a => ret (inl a))) catches (fun e => ret (inr e)).

Declare Scope script_scope.
Delimit Scope script_scope with script.
Notation "x <- m ;; k" := (bind m (fun x => k))
  (at level 61, m at next level, right associativity) : script_scope.
Notation "m ;; k" := (bind m (fun _ => k))
  (at level 61, right associativity) : script_scope.

Definition logging_error (message : string) : M unit := emit (LogError message).

(** [print(message)] *)
Definition print `{World} (message : string) : M unit :=
  fun tr =>
    if stdout_ok tr message
    then (Ok tt, tr ++ [Print message])%list
    else (Raise (OSError "<stdout>"), tr ++ [PrintFailed message])%list.

(** [Path(path).mkdir(exist_ok=True)] *)
Definition mkdir `{World} (path : string) : M unit :=
  fun tr =>
    if mkdir_ok path
    then (Ok tt, tr ++ [Mkdir path])%list
    else (Raise (OSError path), tr ++ [MkdirFailed path])%list.

(** [subprocess.run(command, shell=True, check=True)] *)
Definition subprocess_run `{World} (command : string) : M unit :=
  fun tr =>
    if shell tr command
    then (Ok tt, tr ++ [Subprocess command true])%list
    else (Raise (CalledProcessError command), tr ++ [Subprocess command false])%list.

(** A finished script exits with status 0; an exception that leaves [main]
    ends the interpreter with status 1. *)
Definition exit_status {A : Type} (r : result A) : Z :=
  match r with
  | Ok _ => 0
  | Raise _ => 1
  end.

(** ** os.path *)

Module OsPath.

(** [posixpath.join(a, b)] *)
Definition join (a b : string) : string :=
  if PyStr.startswith "/" b then b
  else if String.eqb a EmptyString || PyStr.endswith "/" a then a ++ b
  else a ++ "/" ++ b.

(** [posixpath.basename(p)]: what follows the last slash. *)
Fixpoint basename (p : string) : string :=
  match p with
  | EmptyString => EmptyString
  | String c p' =>
      if PyStr.mem "/" p' then basename p'
      else if Ascii.eqb c "/" then p'
      else p
  end.

End OsPath.

(** ** add-text-to-vid.py *)

Module AddTextToVid.

Record text_dict : Type := {
  start_time : string;
  end_time : string;
  text : string;
  position : Z * Z;
  font : string;
  font_size : Z
}.

Section Script.
Context `{Builtins} `{World}.

Definition int (s : string) : result Z :=
  match py_int s with
  | Some z => Ok z
  | None => Raise (ValueError_int s)
  end.

(** The body of the [for row in reader] loop: [None] is [continue].
    The test [row[0].startswith('#') or not row] indexes the row before
    it looks whether the row is empty. *)
Definition parse_row (row : list string) : result (option text_dict) :=
  match row with
  | [] => Raise IndexError
  | first :: _ =>
      if PyStr.startswith "#" first then Ok None
      else
        match row with
        | [time; end_time; text; x; y; font; size] =>
            (let* x' := int x in
             let* y' := int y in
             let* size' := int size in
             Ok (Some {| start_time := time; end_time := end_time;
                         text := text; position := (x', y');
                         font := font; font_size := size' |}))%result
        | _ => Raise (ValueError_unpack (List.length row))
        end
  end.

(** The loop itself, with [texts] the list built so far. *)
Fixpoint parse_rows (rows : list (list string)) (texts : list text_dict)
    : result (list text_dict) :=
  match rows with
  | [] => Ok texts
  | row :: rest =>
      match parse_row row with
      | Raise e => Raise e
      | Ok None => parse_rows rest texts
      | Ok (Some d) => parse_rows rest (texts ++ [d])%list
      end
  end.

Definition parse_text_file (file_path : string) : M (list text_dict) :=
  try_except
    (lift match csv_rows file_path with
          | None => Raise (OSError file_path)
          | Some rows => parse_rows rows []
          end)
    is_Exception
    (fun e =>
       (logging_error ("Failed to parse text file: " ++ exn_str e) ;;
        raise (RuntimeError ("Error parsing text file: " ++ exn_str e)))%script).

(** [[float(part) for part in parts]] *)
Fixpoint floats (parts : list string) : result (list float) :=
  match parts with
  | [] => Ok []
  | part :: rest =>
      match py_float part with
      | None => Raise (ValueError_float part)
      | Some x =>
          match floats rest with
          | Ok xs => Ok (x :: xs)
          | Raise e => Raise e
          end
      end
  end.

Definition convert_to_seconds (time_str : string) : result float :=
  match floats (PyStr.split ":" time_str) with
  | Raise e => Raise e
  | Ok parts =>
      match parts with
      | [p0; p1; p2] => Ok (p0 * 3600 + p1 * 60 + p2)%float
      | [p0; p1] => Ok (p0 * 60 + p1)%float
      | p0 :: _ => Ok p0
      | [] => Raise IndexError
      end
  end.

Definition filter_string (text_file : string) (d : text_dict)
    (start_time_seconds end_time_seconds : float) : string :=
  "drawtext=fontfile=/usr/share/fonts/truetype/" ++ font d ++ ".ttf: "
  ++ "textfile='" ++ text_file ++ "': x=" ++ PyStr.of_Z (fst (position d))
  ++ ": y=" ++ PyStr.of_Z (snd (position d)) ++ ": "
  ++ "fontsize=" ++ PyStr.of_Z (font_size d) ++ ": fontcolor=white: "
  ++ "enable='between(t," ++ float_str start_time_seconds ++ ","
  ++ float_str end_time_seconds ++ ")'".

Definition generate_ffmpeg_command (input_video text_file : string)
    (d : text_dict) (output_video : string) : result string :=
  (let* start_time_seconds := convert_to_seconds (start_time d) in
   let* end_time_seconds := convert_to_seconds (end_time d) in
   Ok ("ffmpeg -i " ++ input_video ++ " -filter:v " ++ PyStr.dquote
       ++ filter_string text_file d start_time_seconds end_time_seconds
       ++ PyStr.dquote ++ " "
       ++ "-codec:a copy " ++ output_video))%result.

Definition run_ffmpeg (command : string) : M unit :=
  try_except (subprocess_run command) is_CalledProcessError
    (fun e =>
       (logging_error ("FFmpeg command failed with error: " ++ exn_str e) ;;
        raise (RuntimeError ("FFmpeg command failed: " ++ exn_str e)))%script).

(** The [for idx, text in enumerate(texts)] loop of [main], started at
    index [idx] with the working video [temp_video].  [None] is the
    [return] taken when a step fails; [Some v] is the working video
    once every step has run. *)
Fixpoint overlay_loop (idx : nat) (texts : list text_dict)
    (temp_video : string) : M (option string) :=
  match texts with
  | [] => ret (Some temp_video)
  | d :: rest =>
      let text_file_path :=
        OsPath.join tmpdirname ("text_" ++ PyStr.of_nat idx ++ ".txt") in
      let step_video := tmpdirname ++ "/temp_" ++ PyStr.of_nat idx ++ ".mp4" in
      (emit (WriteFile text_file_path (text d)) ;;
       command <- lift (generate_ffmpeg_command temp_video text_file_path d step_video) ;;
       r <- attempt (run_ffmpeg command) is_RuntimeError ;;
       match r with
       | inr e => logging_error (exn_str e) ;; ret None
       | inl _ => overlay_loop (S idx) rest step_video
       end)%script
  end.

Definition main (input_video text_file output_video : string) : M unit :=
  (parsed <- attempt (parse_text_file text_file) is_RuntimeError ;;
   match parsed with
   | inr e => logging_error (exn_str e)
   | inl texts =>
       let temp_video := OsPath.join tmpdirname "temp.mp4" in
       try_except
         (subprocess_run ("cp " ++ input_video ++ " " ++ temp_video))
         is_CalledProcessError
         (fun e =>
            logging_error ("Failed to copy input video: " ++ exn_str e) ;;
            raise (RuntimeError ("Failed to copy input video: " ++ exn_str e))) ;;
       looped <- overlay_loop 0 texts temp_video ;;
       match looped with
       | None => ret tt
       | Some temp_video =>
           try_except
             (subprocess_run ("cp " ++ temp_video ++ " " ++ output_video))
             is_CalledProcessError
             (fun e =>
                logging_error ("Failed to save output video: " ++ exn_str e) ;;
                raise (RuntimeError ("Failed to save output video: " ++ exn_str e)))
       end
   end)%script.

End Script.

End AddTextToVid.

(** ** preview-fonts.py *)

Module PreviewFonts.

Section Script.
Context `{Builtins} `{World}.

(** [file.endswith(('.ttf', '.otf', '.ttc'))] *)
Definition is_font_file (file : string) : bool :=
  PyStr.endswith ".ttf" file || PyStr.endswith ".otf" file
  || PyStr.endswith ".ttc" file.

Definition list_fonts (font_dir : string) : list string :=
  flat_map
    (fun '(root, files) => map (OsPath.join root) (filter is_font_file files))
    (os_walk font_dir).

Definition font_name (font_path : string) : string :=
  hd EmptyString (PyStr.split "." (OsPath.basename font_path)).

Definition preview_command (font_path output_path : string) : string :=
  "ffmpeg -f lavfi -i color=c=white:s=640x480:d=5 "
  ++ "-vf " ++ PyStr.dquote ++ "drawtext=fontfile=" ++ font_path
  ++ ":text='Sample Text" ++ PyStr.newline ++ font_name font_path
  ++ "':fontsize=48:fontcolor=black:x=(w-text_w)/2:y=(h-text_h)/2"
  ++ PyStr.dquote ++ " "
  ++ "-y " ++ output_path.

Definition generate_preview_video (font_path output_path : string) : M unit :=
  try_except
    (subprocess_run (preview_command font_path output_path))
    is_CalledProcessError
    (fun e =>
       print ("Failed to create preview for " ++ font_name font_path
              ++ ": " ++ exn_str e)).

Definition font_dir : string := "/usr/share/fonts/truetype".
Definition output_dir : string := "font_previews".

Definition output_file (font : string) : string :=
  OsPath.join output_dir
    (PyStr.replace " " "_" (OsPath.basename font) ++ ".mp4").

(** The [for font in list_fonts(font_dir)] loop of [main]. *)
Fixpoint preview_loop (fonts : list string) : M unit :=
  match fonts with
  | [] => ret tt
  | font :: rest =>
      (generate_preview_video font (output_file font) ;;
       print ("Created preview for " ++ OsPath.basename font) ;;
       preview_loop rest)%script
  end.

Definition main : M unit :=
  (mkdir output_dir ;;
   preview_loop (list_fonts font_dir))%script.

End Script.

End PreviewFonts.

(** ** A reference interpretation of the builtins

    Enough of [int], [float] and float formatting to run the scripts on
    plain decimal inputs: [int] on an optional minus sign and digits,
    [float] on digits below 2^53 (where the conversion is exact), and the
    formatting of floats with an integral value below 10^16, which Python
    prints as the integer followed by [.0]. *)

Module Reference.

Definition digit (c : ascii) : option Z :=
  let n := Z.of_nat (nat_of_ascii c) in
  if (48 <=? n)%Z && (n <=? 57)%Z then Some (n - 48)%Z else None.

Fixpoint digits (s : string) (acc : Z) : option Z :=
  match s with
  | EmptyString => Some acc
  | String c s' =>
      match digit c with
      | Some d => digits s' (10 * acc + d)%Z
      | None => None
      end
  end.

Definition natural (s : string) : option Z :=
  match s with
  | EmptyString => None
  | _ => digits s 0
  end.

Definition int (s : string) : option Z :=
  match s with
  | String "-" s' => option_map Z.opp (natural s')
  | _ => natural s
  end.

Definition float (s : string) : option PrimFloat.float :=
  match natural s with
  | Some n =>
      if (n <? 2 ^ 53)%Z then Some (PrimFloat.of_uint63 (Uint63.of_Z n))
      else None
  | None => None
  end.

Definition integral_str (negative : bool) (n : Z) : string :=
  if (n <? 10 ^ 16)%Z
  then (if negative then "-" else "") ++ PyStr.of_Z n ++ ".0"
  else "?".

Definition float_str (x : PrimFloat.float) : string :=
  match Prim2SF x with
  | S754_zero negative => integral_str negative 0
  | S754_infinity negative => if negative then "-inf" else "inf"
  | S754_nan => "nan"
  | S754_finite negative m e =>
      if (0 <=? e)%Z then integral_str negative (Zpos m * 2 ^ e)
      else if (Zpos m mod 2 ^ (- e) =? 0)%Z
           then integral_str negative (Zpos m / 2 ^ (- e))
           else "?"
  end.

Definition builtin_str (e : exn) : string :=
  match e with
  | IndexError => "list index out of range"
  | ValueError_unpack n =>
      if Nat.ltb n 7
      then "not enough values to unpack (expected 7, got " ++ PyStr.of_nat n ++ ")"
      else "too many values to unpack (expected 7)"
  | ValueError_int s => "invalid literal for int() with base 10: '" ++ s ++ "'"
  | ValueError_float s => "could not convert string to float: '" ++ s ++ "'"
  | OSError path => "[Errno 2] No such file or directory: '" ++ path ++ "'"
  | CalledProcessError command =>
      "Command '" ++ command ++ "' returned non-zero exit status 1."
  | RuntimeError message => message
  end.

Definition builtins : Builtins :=
  Build_Builtins int float float_str builtin_str.

(** A world with one instruction file per situation of interest, a
    temporary directory, and a font tree; [fails] lists the shell
    commands that exit with a non-zero status. *)
Definition instruction_files (path : string) : option (list (list string)) :=
  if String.eqb path "hello.csv" then
    Some [["00:00:00"; "00:00:05"; "Hello"; "10"; "20"; "Arial"; "24"]]
  else if String.eqb path "two.csv" then
    Some [["# start"; "end"; "text"; "x"; "y"; "font"; "size"];
          ["00:00:00"; "00:00:05"; "Hello"; "10"; "20"; "Arial"; "24"];
          ["#"; "skipped"];
          ["01:02:03"; "02:30"; "World"; "-5"; "0"; "DejaVuSans"; "36"]]
  else if String.eqb path "empty.csv" then Some []
  else if String.eqb path "blank-line.csv" then
    Some [["00:00:00"; "00:00:05"; "Hello"; "10"; "20"; "Arial"; "24"]; []]
  else if String.eqb path "short-row.csv" then
    Some [["00:00:00"; "00:00:05"; "Hello"; "10"; "20"; "Arial"; "24"];
          ["00:00:05"; "00:00:09"; "World"]]
  else if String.eqb path "bad-size.csv" then
    Some [["00:00:00"; "00:00:05"; "Hello"; "10"; "20"; "Arial"; "big"]]
  else None.

Definition font_tree (dir : string) : list (string * list string) :=
  if String.eqb dir "/usr/share/fonts/truetype" then
    [("/usr/share/fonts/truetype", []);
     ("/usr/share/fonts/truetype/dejavu",
      ["DejaVuSans.ttf"; "DejaVu Sans Mono.ttf"; "README.txt"]);
     ("/usr/share/fonts/truetype/noto", ["Noto.Sans.otf"])]
  else [].

Definition world (fails : string -> bool) : World :=
  Build_World instruction_files (fun _ command => negb (fails command))
    "/tmp/tmpk3x9" font_tree (fun _ => true) (fun _ _ => true).

Definition never (command : string) : bool := false.

(** The second entry of [two.csv]. *)
Definition later : AddTextToVid.text_dict :=
  {| AddTextToVid.start_time := "01:02:03";
     AddTextToVid.end_time := "02:30";
     AddTextToVid.text := "World";
     AddTextToVid.position := (-5, 0)%Z;
     AddTextToVid.font := "DejaVuSans";
     AddTextToVid.font_size := 36%Z |}.

(** The commands that run the tool on the output of step 0. *)
Definition second_step (command : string) : bool :=
  PyStr.startswith "ffmpeg -i /tmp/tmpk3x9/temp_0.mp4 " command.

(** The entry [00:00:00,00:00:05,"Hello",10,20,Arial,24]. *)
Definition hello : AddTextToVid.text_dict :=
  {| AddTextToVid.start_time := "00:00:00";
     AddTextToVid.end_time := "00:00:05";
     AddTextToVid.text := "Hello";
     AddTextToVid.position := (10, 20)%Z;
     AddTextToVid.font := "Arial";
     AddTextToVid.font_size := 24%Z |}.

End Reference.

(** * Vocabulary of the specification

    Projections of a trace and the shapes of a run, in which the properties
    below are stated. *)

(** The shell commands of a trace, with their outcome. *)
Definition subprocesses (tr : list event) : list (string * bool) :=
  flat_map (fun ev => match ev with
                      | Subprocess command ok => [(command, ok)]
                      | _ => []
                      end) tr.

(** The runs of the external tool, and the file copies. *)
Definition ffmpeg_invocations (tr : list event) : list (string * bool) :=
  filter (fun run => PyStr.startswith "ffmpeg " (fst run)) (subprocesses tr).

Definition copies (tr : list event) : list (string * bool) :=
  filter (fun run => PyStr.startswith "cp " (fst run)) (subprocesses tr).

(** The files the script itself writes. *)
Definition written_files (tr : list event) : list string :=
  flat_map (fun ev => match ev with
                      | WriteFile path _ => [path]
                      | _ => []
                      end) tr.


Definition is_comment (row : list string) : bool :=
  match row with
  | first :: _ => PyStr.startswith "#" first
  | [] => false
  end.

Section Vocabulary.
Context `{Builtins} `{World}.
Import AddTextToVid.

(** A row that is not a comment and has the wrong number of fields, or a
    field x, y or size (fields 3, 4 and 6) that [int] rejects. *)
Definition malformed (row : list string) : Prop :=
  is_comment row = false
  /\ (List.length row <> 7
      \/ exists field,
           (nth_error row 3 = Some field \/ nth_error row 4 = Some field
            \/ nth_error row 6 = Some field)
           /\ py_int field = None).

(** Both timestamps of an entry are accepted by the Time Parser. *)
Definition valid_times (d : text_dict) : Prop :=
  exists s e, convert_to_seconds (start_time d) = Ok s
              /\ convert_to_seconds (end_time d) = Ok e.

(** What [parse_text_file] computes inside its [try]. *)
Definition read_instructions (file_path : string) : result (list text_dict) :=
  match csv_rows file_path with
  | None => Raise (OSError file_path)
  | Some rows => parse_rows rows []
  end.

(** The paths of step [idx]: its text-content file and its output video. *)
Definition text_file_path (idx : nat) : string :=
  OsPath.join tmpdirname ("text_" ++ PyStr.of_nat idx ++ ".txt").

Definition step_video (idx : nat) : string :=
  tmpdirname ++ "/temp_" ++ PyStr.of_nat idx ++ ".mp4".

(** The Working Video Reference before step [idx]: the temporary copy of
    the input before step 0, the output of step [idx - 1] afterwards. *)
Definition working_video (idx : nat) : string :=
  match idx with
  | 0 => OsPath.join tmpdirname "temp.mp4"
  | S previous => step_video previous
  end.

Definition cp (source destination : string) : string :=
  "cp " ++ source ++ " " ++ destination.

(** The four ways the overlay loop can go from index [idx] with working
    video [temp] after trace [tr]: nothing left to do; a timestamp that
    [float] rejects; a failed run of the tool; a successful run followed by
    the rest of the loop.  The last index is the events added. *)
Inductive loop_run :
  nat -> list text_dict -> string -> list event ->
  result (option string) -> list event -> Prop :=
| loop_done idx temp tr :
    loop_run idx [] temp tr (Ok (Some temp)) []
| loop_bad_time idx d rest temp tr e :
    generate_ffmpeg_command temp (text_file_path idx) d (step_video idx) = Raise e ->
    loop_run idx (d :: rest) temp tr (Raise e)
      [WriteFile (text_file_path idx) (text d)]
| loop_failed idx d rest temp tr command :
    generate_ffmpeg_command temp (text_file_path idx) d (step_video idx) = Ok command ->
    shell (tr ++ [WriteFile (text_file_path idx) (text d)])%list command = false ->
    loop_run idx (d :: rest) temp tr (Ok None)
      [WriteFile (text_file_path idx) (text d);
       Subprocess command false;
       LogError ("FFmpeg command failed with error: "
                 ++ exn_str (CalledProcessError command));
       LogError ("FFmpeg command failed: "
                 ++ exn_str (CalledProcessError command))]
| loop_step idx d rest temp tr command r delta :
    generate_ffmpeg_command temp (text_file_path idx) d (step_video idx) = Ok command ->
    shell (tr ++ [WriteFile (text_file_path idx) (text d)])%list command = true ->
    loop_run (S idx) rest (step_video idx)
      (tr ++ [WriteFile (text_file_path idx) (text d); Subprocess command true])%list
      r delta ->
    loop_run idx (d :: rest) temp tr r
      (WriteFile (text_file_path idx) (text d) :: Subprocess command true :: delta).

(** The six ways a run of [main] can go, with its result and its trace. *)
Inductive main_run (input_video text_file output_video : string) :
  result unit -> list event -> Prop :=
| main_parse_failed cause :
    read_instructions text_file = Raise cause ->
    main_run input_video text_file output_video (Ok tt)
      [LogError ("Failed to parse text file: " ++ exn_str cause);
       LogError ("Error parsing text file: " ++ exn_str cause)]
| main_copy_in_failed texts :
    read_instructions text_file = Ok texts ->
    shell [] (cp input_video (working_video 0)) = false ->
    main_run input_video text_file output_video
      (Raise (RuntimeError
                ("Failed to copy input video: "
                 ++ exn_str (CalledProcessError (cp input_video (working_video 0))))))
      [Subprocess (cp input_video (working_video 0)) false;
       LogError ("Failed to copy input video: "
                 ++ exn_str (CalledProcessError (cp input_video (working_video 0))))]
| main_loop_raised texts e delta :
    read_instructions text_file = Ok texts ->
    shell [] (cp input_video (working_video 0)) = true ->
    loop_run 0 texts (working_video 0)
      [Subprocess (cp input_video (working_video 0)) true] (Raise e) delta ->
    main_run input_video text_file output_video (Raise e)
      (Subprocess (cp input_video (working_video 0)) true :: delta)
| main_step_failed texts delta :
    read_instructions text_file = Ok texts ->
    shell [] (cp input_video (working_video 0)) = true ->
    loop_run 0 texts (working_video 0)
      [Subprocess (cp input_video (working_video 0)) true] (Ok None) delta ->
    main_run input_video text_file output_video (Ok tt)
      (Subprocess (cp input_video (working_video 0)) true :: delta)
| main_copy_out_failed texts last delta :
    read_instructions text_file = Ok texts ->
    shell [] (cp input_video (working_video 0)) = true ->
    loop_run 0 texts (working_video 0)
      [Subprocess (cp input_video (working_video 0)) true] (Ok (Some last)) delta ->
    shell (Subprocess (cp input_video (working_video 0)) true :: delta)
      (cp last output_video) = false ->
    main_run input_video text_file output_video
      (Raise (RuntimeError
                ("Failed to save output video: "
                 ++ exn_str (CalledProcessError (cp last output_video)))))
      (Subprocess (cp input_video (working_video 0)) true :: delta
       ++ [Subprocess (cp last output_video) false;
           LogError ("Failed to save output video: "
                     ++ exn_str (CalledProcessError (cp last output_video)))])%list
| main_finished texts last delta :
    read_instructions text_file = Ok texts ->
    shell [] (cp input_video (working_video 0)) = true ->
    loop_run 0 texts (working_video 0)
      [Subprocess (cp input_video (working_video 0)) true] (Ok (Some last)) delta ->
    shell (Subprocess (cp input_video (working_video 0)) true :: delta)
      (cp last output_video) = true ->
    main_run input_video text_file output_video (Ok tt)
      (Subprocess (cp input_video (working_video 0)) true :: delta
       ++ [Subprocess (cp last output_video) true])%list.

(** In a preview run, every failed command is followed at once by the
    message that reports it. *)
Fixpoint failures_logged (tr : list event) : Prop :=
  match tr with
  | [] => True
  | Subprocess command false :: rest =>
      (exists name,
          hd_error rest
          = Some (Print ("Failed to create preview for " ++ name ++ ": "
                         ++ exn_str (CalledProcessError command))))
      /\ failures_logged rest
  | _ :: rest => failures_logged rest
  end.

End Vocabulary.

(** ** Operations of a run *)

(** The commands and writes of a successful run, by what they read and what
    they write: a copy [cp source destination]; a run of the tool, which
    reads the video named after [-i] and writes the path that ends the
    command; the writing of a text file. *)
Inductive operation : Type :=
| Copy (source destination : string)
| Overlay (source filter destination : string)
| Write (path content : string).

Definition overlay_command (source filter destination : string) : string :=
  "ffmpeg -i " ++ source ++ " -filter:v " ++ PyStr.dquote ++ filter
  ++ PyStr.dquote ++ " -codec:a copy " ++ destination.

(** The event of an operation that succeeds. *)
Definition event_of (op : operation) : event :=
  match op with
  | Copy source destination =>
      Subprocess ("cp " ++ source ++ " " ++ destination) true
  | Overlay source filter destination =>
      Subprocess (overlay_command source filter destination) true
  | Write path content => WriteFile path content
  end.

(** The file an operation writes. *)
Definition destination (op : operation) : string :=
  match op with
  | Copy _ destination => destination
  | Overlay _ _ destination => destination
  | Write path _ => path
  end.

Section Operations.
Context `{Builtins} `{World}.
Import AddTextToVid.

(** The value of a timestamp that the Time Parser accepts. *)
Definition seconds (time_str : string) : float :=
  match convert_to_seconds time_str with
  | Ok x => x
  | Raise _ => 0%float
  end.

(** The filter of step [idx] for entry [d]. *)
Definition step_filter (idx : nat) (d : text_dict) : string :=
  filter_string (text_file_path idx) d
    (seconds (start_time d)) (seconds (end_time d)).

(** The operations of the steps from index [idx] on: each step writes its
    text file, then overlays the working video of the step into the output
    of the step. *)
Fixpoint chain (idx : nat) (texts : list text_dict) : list operation :=
  match texts with
  | [] => []
  | d :: rest =>
      Write (text_file_path idx) (text d)
      :: Overlay (working_video idx) (step_filter idx d) (step_video idx)
      :: chain (S idx) rest
  end.

(** The operations of a whole run: the copy of the input, the steps, the
    copy to the output path. *)
Definition run_operations (input_video output_video : string)
    (texts : list text_dict) : list operation :=
  (Copy input_video (working_video 0)
   :: chain 0 texts
   ++ [Copy (working_video (List.length texts)) output_video])%list.

End Operations.

(** * Vocabulary of the further properties *)

(** The files the script writes, with what it writes into them. *)
Definition file_writes (tr : list event) : list (string * string) :=
  flat_map (fun ev => match ev with
                      | WriteFile path content => [(path, content)]
                      | _ => []
                      end) tr.

(** What the script prints, and the errors it logs. *)
Definition prints (tr : list event) : list string :=
  flat_map (fun ev => match ev with
                      | Print message => [message]
                      | _ => []
                      end) tr.

Definition log_errors (tr : list event) : list string :=
  flat_map (fun ev => match ev with
                      | LogError message => [message]
                      | _ => []
                      end) tr.

Section MoreVocabulary.
Context `{Builtins} `{World}.
Import AddTextToVid.


End MoreVocabulary.

(** The two kinds of message of the preview script. *)
Definition created_messages (tr : list event) : list string :=
  filter (PyStr.startswith "Created preview for ") (prints tr).

Definition failed_messages (tr : list event) : list string :=
  filter (PyStr.startswith "Failed to create preview for ") (prints tr).

(** Further situations on the reference builtins: a file of comments only,
    a file whose second entry has a timestamp that [float] rejects, and a
    shell in which the copy of the input fails. *)
Module Examples.

Definition instruction_files (path : string) : option (list (list string)) :=
  if String.eqb path "comments.csv" then
    Some [["# start"; "end"; "text"; "x"; "y"; "font"; "size"]; ["#"]]
  else if String.eqb path "bad-time.csv" then
    Some [["00:00:00"; "00:00:05"; "Hello"; "10"; "20"; "Arial"; "24"];
          ["00:0x:07"; "00:00:09"; "World"; "1"; "2"; "Arial"; "24"]]
  else Reference.instruction_files path.

Definition world (fails : string -> bool) : World :=
  Build_World instruction_files (fun _ command => negb (fails command))
    "/tmp/tmpk3x9" Reference.font_tree (fun _ => true) (fun _ _ => true).

(** A world in which [font_previews] cannot be made a directory (a file of
    that name is there). *)
Definition occupied : World :=
  Build_World instruction_files (fun _ _ => true)
    "/tmp/tmpk3x9" Reference.font_tree
    (fun path => negb (String.eqb path "font_previews")) (fun _ _ => true).

Definition copy_of_input (command : string) : bool :=
  PyStr.startswith "cp in.mp4 " command.

(** The preview command of the font [DejaVu Sans Mono.ttf]. *)
Definition mono (command : string) : bool :=
  PyStr.endswith "DejaVu_Sans_Mono.ttf.mp4" command.


(** The second entry of [bad-time.csv]. *)
Definition mistimed : AddTextToVid.text_dict :=
  {| AddTextToVid.start_time := "00:0x:07";
     AddTextToVid.end_time := "00:00:09";
     AddTextToVid.text := "World";
     AddTextToVid.position := (1, 2)%Z;
     AddTextToVid.font := "Arial";
     AddTextToVid.font_size := 24%Z |}.

End Examples.

(** * Properties *)

(** ** Splitting *)

Section Split.

Lemma split_not_nil (c : ascii) (s : string) : PyStr.split c s <> [].
Proof.
  induction s as [|a s IH]; simpl; [discriminate|].
  destruct (Ascii.eqb a c); [discriminate|].
  destruct (PyStr.split c s); discriminate.
Qed.

(** A piece without the separator, followed by the separator, is split off. *)
Lemma split_app_sep (c : ascii) (p rest : string) :
  PyStr.mem c p = false ->
  PyStr.split c (p ++ String c rest) = p :: PyStr.split c rest.
Proof.
  induction p as [|a p IH]; simpl; intros Hm.
  - now rewrite Ascii.eqb_refl.
  - apply orb_false_iff in Hm as [Ha Hp].
    rewrite Ha, (IH Hp). reflexivity.
Qed.

Lemma split_no_sep (c : ascii) (p : string) :
  PyStr.mem c p = false -> PyStr.split c p = [p].
Proof.
  induction p as [|a p IH]; simpl; intros Hm; [reflexivity|].
  apply orb_false_iff in Hm as [Ha Hp].
  now rewrite Ha, (IH Hp).
Qed.

End Split.

(** ** Prefixes and occurrences *)

Section Occurrences.

Lemma append_assoc (a b c : string) : (a ++ b) ++ c = a ++ b ++ c.
Proof. induction a as [|x a IH]; simpl; [reflexivity|now rewrite IH]. Qed.

Lemma startswith_app (p s : string) : PyStr.startswith p (p ++ s) = true.
Proof.
  induction p as [|a p IH]; [reflexivity|].
  simpl. now rewrite Ascii.eqb_refl, IH.
Qed.






End Occurrences.

(** ** Time Parser *)

Section TimeParser.
Context `{Builtins}.
Import AddTextToVid.

Lemma floats_all (parts : list string) :
  (forall p, In p parts -> py_float p <> None) ->
  exists values, floats parts = Ok values
                 /\ map py_float parts = map Some values.
Proof.
  induction parts as [|p parts IH]; intros Hall.
  - exists []. now split.
  - destruct (py_float p) as [x|] eqn:Hp.
    + destruct IH as [values [Hv Hm]]; [intros q Hq; apply Hall; now right|].
      exists (x :: values). simpl. rewrite Hp, Hv, Hm. now split.
    + exfalso. apply (Hall p); [now left|exact Hp].
Qed.

Lemma floats_bad (parts : list string) :
  (exists p, In p parts /\ py_float p = None) ->
  exists bad, In bad parts /\ py_float bad = None
              /\ floats parts = Raise (ValueError_float bad).
Proof.
  induction parts as [|p parts IH]; intros [q [Hin Hq]]; [destruct Hin|].
  simpl. destruct (py_float p) as [x|] eqn:Hp.
  - destruct Hin as [->|Hin]; [congruence|].
    destruct IH as [bad [Hb [Hn Hf]]]; [now exists q|].
    exists bad. rewrite Hf. repeat split; auto.
  - exists p. repeat split; auto.
Qed.

(** C5.  A timestamp of one to three colon-separated numeric parts is
    converted to [h*3600 + m*60 + s], [m*60 + s] or [s] in float
    arithmetic, according to the parts that are present; the three
    examples of the specification come out as 3723.0, 150.0 and 45.0; and
    a part that [float] rejects makes the conversion fail with that
    [ValueError], however many parts there are. *)
Theorem convert_to_seconds_spec :
  (forall h m s x y z,
      PyStr.mem ":" h = false -> PyStr.mem ":" m = false ->
      PyStr.mem ":" s = false ->
      py_float h = Some x -> py_float m = Some y -> py_float s = Some z ->
      convert_to_seconds (h ++ ":" ++ m ++ ":" ++ s)
      = Ok (x * 3600 + y * 60 + z)%float)
  /\ (forall m s y z,
      PyStr.mem ":" m = false -> PyStr.mem ":" s = false ->
      py_float m = Some y -> py_float s = Some z ->
      convert_to_seconds (m ++ ":" ++ s) = Ok (y * 60 + z)%float)
  /\ (forall s z,
      PyStr.mem ":" s = false -> py_float s = Some z ->
      convert_to_seconds s = Ok z)
  /\ (py_float "01" = Some 1%float -> py_float "02" = Some 2%float ->
      py_float "03" = Some 3%float ->
      convert_to_seconds "01:02:03" = Ok 3723%float)
  /\ (py_float "02" = Some 2%float -> py_float "30" = Some 30%float ->
      convert_to_seconds "02:30" = Ok 150%float)
  /\ (py_float "45" = Some 45%float ->
      convert_to_seconds "45" = Ok 45%float)
  /\ (forall time_str,
      (exists part, In part (PyStr.split ":" time_str) /\ py_float part = None) ->
      exists bad, In bad (PyStr.split ":" time_str) /\ py_float bad = None
                  /\ convert_to_seconds time_str = Raise (ValueError_float bad)).
Proof.
  assert (three : forall h m s x y z,
      PyStr.mem ":" h = false -> PyStr.mem ":" m = false ->
      PyStr.mem ":" s = false ->
      py_float h = Some x -> py_float m = Some y -> py_float s = Some z ->
      convert_to_seconds (h ++ ":" ++ m ++ ":" ++ s)
      = Ok (x * 3600 + y * 60 + z)%float).
  { intros h m s x y z Hh Hm Hs Fh Fm Fs. unfold convert_to_seconds.
    change (":" ++ m ++ ":" ++ s) with (String ":" (m ++ String ":" s)).
    rewrite (split_app_sep _ h), (split_app_sep _ m), (split_no_sep _ s) by assumption.
    simpl. now rewrite Fh, Fm, Fs. }
  assert (two : forall m s y z,
      PyStr.mem ":" m = false -> PyStr.mem ":" s = false ->
      py_float m = Some y -> py_float s = Some z ->
      convert_to_seconds (m ++ ":" ++ s) = Ok (y * 60 + z)%float).
  { intros m s y z Hm Hs Fm Fs. unfold convert_to_seconds.
    change (":" ++ s) with (String ":" s).
    rewrite (split_app_sep _ m), (split_no_sep _ s) by assumption.
    simpl. now rewrite Fm, Fs. }
  assert (one : forall s z,
      PyStr.mem ":" s = false -> py_float s = Some z ->
      convert_to_seconds s = Ok z).
  { intros s z Hs Fs. unfold convert_to_seconds.
    rewrite (split_no_sep _ s) by assumption. simpl. now rewrite Fs. }
  repeat split; try assumption.
  - intros F1 F2 F3.
    exact (three "01" "02" "03" _ _ _ eq_refl eq_refl eq_refl F1 F2 F3).
  - intros F2 F30. exact (two "02" "30" _ _ eq_refl eq_refl F2 F30).
  - intros F45. exact (one "45" _ eq_refl F45).
  - intros time_str Hbad. unfold convert_to_seconds.
    destruct (floats_bad _ Hbad) as [bad [Hin [Hn Hf]]].
    exists bad. rewrite Hf. repeat split; auto.
Qed.

(** C10.  With four or more colon-separated parts, all numeric, the
    conversion does not fail: it returns the value of the first part and
    ignores the others. *)
Theorem convert_to_seconds_four_or_more (time_str first : string)
    (others : list string) :
  PyStr.split ":" time_str = first :: others ->
  3 <= List.length others ->
  (forall part, In part (first :: others) -> py_float part <> None) ->
  exists x, py_float first = Some x /\ convert_to_seconds time_str = Ok x.
Proof.
  intros Hsplit Hlen Hall. unfold convert_to_seconds. rewrite Hsplit.
  destruct (floats_all _ Hall) as [values [Hv Hm]]. rewrite Hv.
  destruct values as [|x values]; [discriminate|].
  simpl in Hm. injection Hm as Hx Hm.
  assert (Hl : List.length values = List.length others).
  { rewrite <- (length_map Some values), <- Hm. apply length_map. }
  exists x. split; [exact Hx|].
  destruct values as [|v1 [|v2 [|v3 values]]]; simpl in Hl; try lia.
  reflexivity.
Qed.

End TimeParser.

Lemma convert_to_seconds_spec_witness :
  @AddTextToVid.convert_to_seconds Reference.builtins "01:02:03" = Ok 3723%float
  /\ @AddTextToVid.convert_to_seconds Reference.builtins "02:30" = Ok 150%float
  /\ @AddTextToVid.convert_to_seconds Reference.builtins "45" = Ok 45%float
  /\ exists bad,
       @AddTextToVid.convert_to_seconds Reference.builtins "1:x2:y"
       = Raise (ValueError_float bad).
Proof.
  destruct (@convert_to_seconds_spec Reference.builtins)
    as [_ [_ [_ [E1 [E2 [E3 Bad]]]]]].
  split; [exact (E1 eq_refl eq_refl eq_refl)|].
  split; [exact (E2 eq_refl eq_refl)|].
  split; [exact (E3 eq_refl)|].
  destruct (Bad "1:x2:y") as [bad [_ [_ Hbad]]].
  - exists "x2". split; [right; left; reflexivity|reflexivity].
  - exists bad. exact Hbad.
Defined.

Lemma convert_to_seconds_four_or_more_witness :
  exists x,
    @py_float Reference.builtins "7" = Some x
    /\ @AddTextToVid.convert_to_seconds Reference.builtins "7:08:09:10" = Ok x.
Proof.
  apply (@convert_to_seconds_four_or_more Reference.builtins
           "7:08:09:10" "7" ["08"; "09"; "10"]).
  - reflexivity.
  - simpl. lia.
  - intros part [<-|[<-|[<-|[<-|[]]]]]; discriminate.
Defined.

(** ** Instruction Parser *)

Section InstructionParser.
Context `{Builtins} `{World}.
Import AddTextToVid.

Lemma parse_row_comment (row : list string) :
  is_comment row = true -> parse_row row = Ok None.
Proof.
  destruct row as [|first rest]; unfold is_comment, parse_row;
    [discriminate|].
  now intros ->.
Qed.

Lemma parse_row_empty : parse_row [] = Raise IndexError.
Proof. reflexivity. Qed.

Lemma parse_row_malformed (row : list string) :
  malformed row -> exists e, parse_row row = Raise e.
Proof.
  intros [Hc Hbad]. unfold parse_row.
  destruct row as [|f0 row]; [now exists IndexError|].
  unfold is_comment in Hc. rewrite Hc.
  destruct row as [|f1 [|f2 [|f3 [|f4 [|f5 [|f6 [|f7 row]]]]]]];
    try (eexists; reflexivity).
  destruct Hbad as [Hlen|[field [Hnth Hint]]]; [now elim Hlen|].
  unfold rbind, int.
  destruct Hnth as [Hn|[Hn|Hn]]; simpl in Hn; injection Hn as ->.
  - rewrite Hint. eexists; reflexivity.
  - destruct (py_int f3); [|eexists; reflexivity].
    rewrite Hint. eexists; reflexivity.
  - destruct (py_int f3); [|eexists; reflexivity].
    destruct (py_int f4); [|eexists; reflexivity].
    rewrite Hint. eexists; reflexivity.
Qed.

(** A row that raises anywhere in the file makes the whole loop raise. *)
Lemma parse_rows_raise (rows : list (list string)) :
  forall texts bad e,
    In bad rows -> parse_row bad = Raise e ->
    exists e', parse_rows rows texts = Raise e'.
Proof.
  induction rows as [|row rows IH]; intros texts bad e Hin Hbad; [destruct Hin|].
  simpl. destruct Hin as [->|Hin].
  - rewrite Hbad. now exists e.
  - destruct (parse_row row) as [[d|]|e0]; eauto.
Qed.

(** A comment row adds nothing and leaves the other rows in their order. *)
Lemma parse_rows_skips_comment (before after : list (list string))
    (comment : list string) :
  is_comment comment = true ->
  forall texts,
    parse_rows (before ++ comment :: after)%list texts
    = parse_rows (before ++ after)%list texts.
Proof.
  intros Hc. induction before as [|row before IH]; intros texts; simpl.
  - now rewrite (parse_row_comment _ Hc).
  - destruct (parse_row row) as [[d|]|e]; auto.
Qed.

(** C7 fails on the code for empty rows.  The test
    [row[0].startswith('#') or not row] indexes the row before it looks
    whether the row is empty, so an empty row reached by the loop is not
    skipped: it raises [IndexError], and no sequence is parsed at all.
    (Comment rows are skipped, see [parse_rows_skips_comment].) *)
Theorem empty_row_raises (before after : list (list string)) :
  forall texts,
    (forall row, In row before -> exists parsed, parse_row row = Ok parsed) ->
    parse_rows (before ++ [] :: after)%list texts = Raise IndexError.
Proof.
  induction before as [|row before IH]; intros texts Hok; simpl; [reflexivity|].
  destruct (Hok row (or_introl eq_refl)) as [parsed ->].
  destruct parsed; apply IH; intros r Hr; apply Hok; now right.
Qed.

Lemma parse_text_file_run (file_path : string) (tr : list event) :
  parse_text_file file_path tr =
    match read_instructions file_path with
    | Ok texts => (Ok texts, tr)
    | Raise cause =>
        (Raise (RuntimeError ("Error parsing text file: " ++ exn_str cause)),
         tr ++ [LogError ("Failed to parse text file: " ++ exn_str cause)])%list
    end.
Proof.
  unfold parse_text_file, read_instructions, try_except, lift.
  destruct (csv_rows file_path) as [rows|]; [|reflexivity].
  destruct (parse_rows rows []); reflexivity.
Qed.

End InstructionParser.

(** ** Command Builder *)

Section CommandBuilder.
Context `{Builtins}.
Import AddTextToVid.

Lemma generate_shape (input_video text_file : string) (d : text_dict)
    (output_video command : string) :
  generate_ffmpeg_command input_video text_file d output_video = Ok command ->
  exists s e,
    convert_to_seconds (start_time d) = Ok s
    /\ convert_to_seconds (end_time d) = Ok e
    /\ command = "ffmpeg -i " ++ input_video ++ " -filter:v " ++ PyStr.dquote
                 ++ filter_string text_file d s e ++ PyStr.dquote ++ " "
                 ++ "-codec:a copy " ++ output_video.
Proof.
  unfold generate_ffmpeg_command, rbind.
  destruct (convert_to_seconds (start_time d)) as [s|]; [|discriminate].
  destruct (convert_to_seconds (end_time d)) as [e|]; [|discriminate].
  intros [= <-]. now exists s, e.
Qed.

Lemma generate_is_ffmpeg (input_video text_file : string) (d : text_dict)
    (output_video command : string) :
  generate_ffmpeg_command input_video text_file d output_video = Ok command ->
  PyStr.startswith "ffmpeg " command = true
  /\ PyStr.startswith "cp " command = false.
Proof.
  intros Hg. destruct (generate_shape _ _ _ _ _ Hg) as [s [e [_ [_ ->]]]].
  split; reflexivity.
Qed.





End CommandBuilder.



(** ** Overlay Compositor *)

Section Driver.
Context `{Builtins} `{World}.
Import AddTextToVid.

Lemma run_ffmpeg_run (command : string) (tr : list event) :
  attempt (run_ffmpeg command) is_RuntimeError tr =
    if shell tr command
    then (Ok (inl tt), tr ++ [Subprocess command true])%list
    else (Ok (inr (RuntimeError ("FFmpeg command failed: "
                                 ++ exn_str (CalledProcessError command)))),
          tr ++ [Subprocess command false;
                 LogError ("FFmpeg command failed with error: "
                           ++ exn_str (CalledProcessError command))])%list.
Proof.
  unfold attempt, run_ffmpeg, try_except, bind, subprocess_run, ret,
    logging_error, emit, raise.
  destruct (shell tr command); simpl; [reflexivity|].
  now rewrite <- app_assoc.
Qed.

Lemma overlay_loop_run (texts : list text_dict) :
  forall idx temp tr,
  exists r delta,
    overlay_loop idx texts temp tr = (r, tr ++ delta)%list
    /\ loop_run idx texts temp tr r delta.
Proof.
  induction texts as [|d rest IH]; intros idx temp tr.
  - exists (Ok (Some temp)), []. simpl. unfold ret. rewrite app_nil_r.
    split; [reflexivity|constructor].
  - cbn [overlay_loop]. unfold bind at 1. unfold emit at 1.
    fold (text_file_path idx). fold (step_video idx).
    unfold bind at 1. unfold lift at 1.
    destruct (generate_ffmpeg_command temp (text_file_path idx) d (step_video idx))
      as [command|e] eqn:Hg.
    + unfold bind at 1. rewrite run_ffmpeg_run.
      destruct (shell (tr ++ [WriteFile (text_file_path idx) (text d)])%list command)
        eqn:Hshell.
      * destruct (IH (S idx) (step_video idx)
                    (tr ++ [WriteFile (text_file_path idx) (text d);
                            Subprocess command true])%list) as [r [delta [Hrun Hrel]]].
        exists r, (WriteFile (text_file_path idx) (text d)
                   :: Subprocess command true :: delta).
        split.
        -- rewrite <- app_assoc. simpl app at 2. rewrite Hrun.
           rewrite <- app_assoc. reflexivity.
        -- now apply loop_step.
      * eexists (Ok None), _. split.
        -- unfold bind, logging_error, emit, ret. cbn [exn_str].
           rewrite <- !app_assoc. reflexivity.
        -- now apply loop_failed.
    + exists (Raise e), [WriteFile (text_file_path idx) (text d)].
      split; [reflexivity|now apply loop_bad_time].
Qed.

Lemma copy_run (source destination message : string) (tr : list event) :
  try_except (subprocess_run (cp source destination)) is_CalledProcessError
    (fun e => (logging_error (message ++ exn_str e) ;;
               raise (RuntimeError (message ++ exn_str e)))%script) tr
  = if shell tr (cp source destination)
    then (Ok tt, tr ++ [Subprocess (cp source destination) true])%list
    else (Raise (RuntimeError
                   (message ++ exn_str (CalledProcessError (cp source destination)))),
          tr ++ [Subprocess (cp source destination) false;
                 LogError (message
                           ++ exn_str (CalledProcessError (cp source destination)))])%list.
Proof.
  unfold try_except, subprocess_run, bind, logging_error, emit, raise.
  destruct (shell tr (cp source destination)); simpl; [reflexivity|].
  now rewrite <- app_assoc.
Qed.

Lemma main_unfold (input_video text_file output_video : string) :
  main input_video text_file output_video [] =
    match read_instructions text_file with
    | Raise cause =>
        (Ok tt, [LogError ("Failed to parse text file: " ++ exn_str cause);
                 LogError ("Error parsing text file: " ++ exn_str cause)])
    | Ok texts =>
        match
          try_except (subprocess_run (cp input_video (working_video 0)))
            is_CalledProcessError
            (fun e => (logging_error ("Failed to copy input video: " ++ exn_str e) ;;
                       raise (RuntimeError ("Failed to copy input video: "
                                            ++ exn_str e)))%script) []
        with
        | (Raise e, tr) => (Raise e, tr)
        | (Ok _, tr) =>
            match overlay_loop 0 texts (working_video 0) tr with
            | (Raise e, tr') => (Raise e, tr')
            | (Ok None, tr') => (Ok tt, tr')
            | (Ok (Some last), tr') =>
                try_except (subprocess_run (cp last output_video))
                  is_CalledProcessError
                  (fun e =>
                     (logging_error ("Failed to save output video: " ++ exn_str e) ;;
                      raise (RuntimeError ("Failed to save output video: "
                                           ++ exn_str e)))%script) tr'
            end
        end
    end.
Proof.
  unfold main.
  unfold bind at 1, attempt, try_except at 1, bind at 1.
  rewrite parse_text_file_run.
  destruct (read_instructions text_file) as [texts|cause]; [|reflexivity].
  unfold ret, bind. fold (working_video 0).
  fold (cp input_video (working_video 0)).
  destruct (try_except _ _ _ []) as [[u|e] tr]; [|reflexivity].
  destruct (overlay_loop 0 texts (working_video 0) tr) as [[[last|]|e] tr'];
    reflexivity.
Qed.

Lemma main_runs (input_video text_file output_video : string) :
  main_run input_video text_file output_video
    (fst (main input_video text_file output_video []))
    (snd (main input_video text_file output_video [])).
Proof.
  rewrite main_unfold.
  destruct (read_instructions text_file) as [texts|cause] eqn:Hread.
  - rewrite copy_run.
    destruct (shell [] (cp input_video (working_video 0))) eqn:Hcp.
    + cbn [app].
      destruct (overlay_loop_run texts 0 (working_video 0)
                  [Subprocess (cp input_video (working_video 0)) true])
        as [r [delta [Hrun Hrel]]].
      rewrite Hrun. cbn [app].
      destruct r as [[last|]|e].
      * rewrite copy_run.
        destruct (shell (Subprocess (cp input_video (working_video 0)) true :: delta)
                    (cp last output_video)) eqn:Hout.
        -- simpl. eapply main_finished; eauto.
        -- simpl. eapply main_copy_out_failed; eauto.
      * simpl. eapply main_step_failed; eauto.
      * simpl. eapply main_loop_raised; eauto.
    + simpl. eapply main_copy_in_failed; eauto.
  - simpl. now apply main_parse_failed.
Qed.

Lemma subprocesses_app (a b : list event) :
  subprocesses (a ++ b) = (subprocesses a ++ subprocesses b)%list.
Proof. apply flat_map_app. Qed.

Lemma ffmpeg_invocations_app (a b : list event) :
  ffmpeg_invocations (a ++ b) = (ffmpeg_invocations a ++ ffmpeg_invocations b)%list.
Proof. unfold ffmpeg_invocations. now rewrite subprocesses_app, filter_app. Qed.

Lemma copies_app (a b : list event) :
  copies (a ++ b) = (copies a ++ copies b)%list.
Proof. unfold copies. now rewrite subprocesses_app, filter_app. Qed.

Lemma written_files_app (a b : list event) :
  written_files (a ++ b) = (written_files a ++ written_files b)%list.
Proof. apply flat_map_app. Qed.

Lemma ffmpeg_invocations_cons_ffmpeg (command : string) (ok : bool) (tr : list event) :
  PyStr.startswith "ffmpeg " command = true ->
  ffmpeg_invocations (Subprocess command ok :: tr)
  = (command, ok) :: ffmpeg_invocations tr.
Proof.
  intros E. unfold ffmpeg_invocations.
  cbn [subprocesses flat_map app filter fst]. now rewrite E.
Qed.

Lemma copies_cons_ffmpeg (command : string) (ok : bool) (tr : list event) :
  PyStr.startswith "cp " command = false ->
  copies (Subprocess command ok :: tr) = copies tr.
Proof.
  intros E. unfold copies.
  cbn [subprocesses flat_map app filter fst]. now rewrite E.
Qed.

Lemma ffmpeg_invocations_cons_cp (source destination : string) (ok : bool)
    (tr : list event) :
  ffmpeg_invocations (Subprocess (cp source destination) ok :: tr)
  = ffmpeg_invocations tr.
Proof. reflexivity. Qed.

Lemma copies_cons_cp (source destination : string) (ok : bool) (tr : list event) :
  copies (Subprocess (cp source destination) ok :: tr)
  = (cp source destination, ok) :: copies tr.
Proof. reflexivity. Qed.

Lemma ffmpeg_invocations_cons_write (path content : string) (tr : list event) :
  ffmpeg_invocations (WriteFile path content :: tr) = ffmpeg_invocations tr.
Proof. reflexivity. Qed.

Lemma copies_cons_write (path content : string) (tr : list event) :
  copies (WriteFile path content :: tr) = copies tr.
Proof. reflexivity. Qed.

(** The loop copies nothing, and every command it runs is the tool. *)
Lemma loop_run_commands idx texts temp tr r delta :
  loop_run idx texts temp tr r delta ->
  copies delta = [] /\ subprocesses delta = ffmpeg_invocations delta.
Proof.
  induction 1 as [idx temp tr|idx d rest temp tr e Hg
                  |idx d rest temp tr command Hg Hsh
                  |idx d rest temp tr command r delta Hg Hsh Hrun [IHc IHs]].
  - now split.
  - now split.
  - destruct (generate_is_ffmpeg _ _ _ _ _ Hg) as [Hf Hc].
    split.
    + rewrite copies_cons_write. now rewrite copies_cons_ffmpeg.
    + change (subprocesses (Subprocess command false :: [])
              = ffmpeg_invocations (Subprocess command false :: [])).
      now rewrite ffmpeg_invocations_cons_ffmpeg.
  - destruct (generate_is_ffmpeg _ _ _ _ _ Hg) as [Hf Hc].
    split.
    + rewrite copies_cons_write. now rewrite copies_cons_ffmpeg.
    + change (subprocesses (Subprocess command true :: delta)
              = ffmpeg_invocations (Subprocess command true :: delta)).
      rewrite ffmpeg_invocations_cons_ffmpeg by assumption.
      cbn [subprocesses flat_map app]. fold (subprocesses delta).
      now rewrite IHs.
Qed.

(** A failed run of the tool is the last one, and the loop returns. *)
Lemma loop_run_failed idx texts temp tr r delta :
  loop_run idx texts temp tr r delta ->
  forall k command,
    nth_error (ffmpeg_invocations delta) k = Some (command, false) ->
    r = Ok None /\ List.length (ffmpeg_invocations delta) = S k.
Proof.
  induction 1 as [idx temp tr|idx d rest temp tr e Hg
                  |idx d rest temp tr command Hg Hsh
                  |idx d rest temp tr command r delta Hg Hsh Hrun IH];
    intros k failed Hk.
  - now destruct k.
  - now destruct k.
  - destruct (generate_is_ffmpeg _ _ _ _ _ Hg) as [Hf _].
    rewrite ffmpeg_invocations_cons_write,
      ffmpeg_invocations_cons_ffmpeg in * by assumption.
    change (ffmpeg_invocations [_; _]) with (@nil (string * bool)) in *.
    destruct k as [|[|k]]; try discriminate. now split.
  - destruct (generate_is_ffmpeg _ _ _ _ _ Hg) as [Hf _].
    rewrite ffmpeg_invocations_cons_write,
      ffmpeg_invocations_cons_ffmpeg in * by assumption.
    destruct k as [|k]; [discriminate|].
    destruct (IH k failed Hk) as [-> Hlen]. simpl. now rewrite Hlen.
Qed.


Lemma generate_ok input_video text_file d output_video :
  valid_times d ->
  exists command,
    generate_ffmpeg_command input_video text_file d output_video = Ok command.
Proof.
  intros [s [e [Hs He]]]. unfold generate_ffmpeg_command, rbind.
  rewrite Hs, He. eexists; reflexivity.
Qed.

Lemma read_of_parse text_file texts tr :
  parse_text_file text_file [] = (Ok texts, tr) ->
  read_instructions text_file = Ok texts.
Proof.
  rewrite parse_text_file_run.
  destruct (read_instructions text_file); [now intros [= ->]|discriminate].
Qed.

Lemma loop_run_success idx texts temp tr r delta :
  loop_run idx texts temp tr r delta ->
  temp = working_video idx ->
  (forall tr command, shell tr command = true) ->
  (forall d, In d texts -> valid_times d) ->
  r = Ok (Some (working_video (idx + List.length texts)))
  /\ List.length (ffmpeg_invocations delta) = List.length texts
  /\ (forall i d,
         nth_error texts i = Some d ->
         exists command,
           generate_ffmpeg_command (working_video (idx + i))
             (text_file_path (idx + i)) d (step_video (idx + i)) = Ok command
           /\ nth_error (ffmpeg_invocations delta) i = Some (command, true))
  /\ written_files delta = map text_file_path (seq idx (List.length texts)).
Proof.
  intros Hrun Htemp Hshell.
  induction Hrun as [idx temp tr|idx d rest temp tr e Hg
                     |idx d rest temp tr command Hg Hsh
                     |idx d rest temp tr command r delta Hg Hsh Hrun IH];
    intros Hvalid.
  - subst temp. rewrite Nat.add_0_r. repeat split; auto.
    intros [|i] d Hd; discriminate.
  - destruct (generate_ok temp (text_file_path idx) d (step_video idx))
      as [command Hc]; [apply Hvalid; now left|congruence].
  - rewrite Hshell in Hsh. discriminate.
  - destruct (generate_is_ffmpeg _ _ _ _ _ Hg) as [Hf _].
    destruct IH as [Hr [Hlen [Hnth Hw]]];
      [reflexivity|intros d' Hd'; apply Hvalid; now right|].
    rewrite ffmpeg_invocations_cons_write,
      ffmpeg_invocations_cons_ffmpeg by assumption.
    cbn [List.length]. rewrite Nat.add_succ_r. repeat split.
    + exact Hr.
    + now rewrite Hlen.
    + intros [|i] d' Hd'.
      * injection Hd' as <-. exists command. rewrite Nat.add_0_r.
        subst temp. now split.
      * rewrite Nat.add_succ_r. apply (Hnth i d' Hd').
    + cbn [written_files flat_map app seq map]. fold (written_files delta).
      now rewrite Hw.
Qed.

Lemma generate_is_overlay_command input_video text_file d output_video command :
  generate_ffmpeg_command input_video text_file d output_video = Ok command ->
  command
  = overlay_command input_video
      (filter_string text_file d (seconds (start_time d)) (seconds (end_time d)))
      output_video.
Proof.
  intros Hg. destruct (generate_shape _ _ _ _ _ Hg) as [s [e [Hs [He ->]]]].
  unfold seconds. rewrite Hs, He. reflexivity.
Qed.

(** A loop in which everything succeeds performs the operations of its
    steps, and nothing else. *)
Lemma loop_run_operations idx texts temp tr r delta :
  loop_run idx texts temp tr r delta ->
  temp = working_video idx ->
  (forall tr command, shell tr command = true) ->
  (forall d, In d texts -> valid_times d) ->
  delta = map event_of (chain idx texts).
Proof.
  intros Hrun Htemp Hshell.
  induction Hrun as [idx temp tr|idx d rest temp tr e Hg
                     |idx d rest temp tr command Hg Hsh
                     |idx d rest temp tr command r delta Hg Hsh Hrun IH];
    intros Hvalid.
  - reflexivity.
  - destruct (generate_ok temp (text_file_path idx) d (step_video idx))
      as [command Hc]; [apply Hvalid; now left|congruence].
  - rewrite Hshell in Hsh. discriminate.
  - cbn [chain map event_of]. subst temp.
    rewrite (generate_is_overlay_command _ _ _ _ _ Hg).
    rewrite IH; [reflexivity|reflexivity|].
    intros d' Hd'. apply Hvalid. now right.
Qed.

Lemma outside_tmpdir (path rest : string) :
  PyStr.startswith tmpdirname path = false -> path <> tmpdirname ++ rest.
Proof. intros Hout ->. now rewrite startswith_app in Hout. Qed.

Lemma join_tmpdir (name : string) :
  PyStr.startswith "/" name = false ->
  exists rest, OsPath.join tmpdirname name = tmpdirname ++ rest.
Proof.
  intros Hname. unfold OsPath.join. rewrite Hname.
  destruct (String.eqb tmpdirname EmptyString || PyStr.endswith "/" tmpdirname);
    eexists; reflexivity.
Qed.

(** Every operation of the steps writes into the temporary directory. *)
Lemma chain_destinations (path : string) (texts : list text_dict) :
  PyStr.startswith tmpdirname path = false ->
  forall idx, Forall (fun op => destination op <> path) (chain idx texts).
Proof.
  intros Hout. induction texts as [|d rest IH]; intros idx; [constructor|].
  cbn [chain]. constructor; [|constructor; [|apply IH]]; cbn [destination].
  - destruct (join_tmpdir ("text_" ++ PyStr.of_nat idx ++ ".txt") eq_refl)
      as [rest' Hjoin].
    unfold text_file_path. rewrite Hjoin. intros E. symmetry in E.
    now apply (outside_tmpdir _ _ Hout E).
  - unfold step_video. intros E. symmetry in E.
    now apply (outside_tmpdir _ _ Hout E).
Qed.

(** C1, as amended.  For a well-formed instruction file of N entries, when
    the shell commands succeed, [main] returns after exactly N runs of the
    tool, one per entry and in file order.  The run is the list of
    operations [run_operations]: the copy of the input into the temporary
    directory; for each step its text file, then the command
    [ffmpeg -i <working video of the step> ... <output of the step>] that
    the Command Builder returns for the entry; and last the copy of the
    working video after step N to the output path.  The working video of
    step 0 is the temporary copy and that of step [i + 1] is the output of
    step [i].  Unless the input is itself named as the output path (the
    input not lying in the fresh temporary directory), no operation of the
    run writes the input video. *)
Theorem overlay_chain (input_video text_file output_video : string)
    (texts : list text_dict) :
  parse_text_file text_file [] = (Ok texts, []) ->
  (forall d, In d texts -> valid_times d) ->
  (forall tr command, shell tr command = true) ->
  exists tr,
    main input_video text_file output_video [] = (Ok tt, tr)
    /\ tr = map event_of (run_operations input_video output_video texts)
    /\ List.length (ffmpeg_invocations tr) = List.length texts
    /\ (forall i d,
           nth_error texts i = Some d ->
           generate_ffmpeg_command (working_video i) (text_file_path i) d
             (step_video i)
           = Ok (overlay_command (working_video i) (step_filter i d)
                   (step_video i))
           /\ nth_error (ffmpeg_invocations tr) i
              = Some (overlay_command (working_video i) (step_filter i d)
                        (step_video i), true))
    /\ (forall i, working_video (S i) = step_video i)
    /\ subprocesses tr
       = ((cp input_video (working_video 0), true)
          :: ffmpeg_invocations tr
          ++ [(cp (working_video (List.length texts)) output_video, true)])%list
    /\ copies tr
       = [(cp input_video (working_video 0), true);
          (cp (working_video (List.length texts)) output_video, true)]
    /\ written_files tr = map text_file_path (seq 0 (List.length texts))
    /\ (input_video <> output_video ->
        PyStr.startswith tmpdirname input_video = false ->
        Forall (fun op => destination op <> input_video)
          (run_operations input_video output_video texts)).
Proof.
  intros Hparse Hvalid Hshell.
  pose proof (main_runs input_video text_file output_video) as Hmain.
  destruct (main input_video text_file output_video []) as [r tr].
  cbn [fst snd] in Hmain.
  pose proof (read_of_parse _ _ _ Hparse) as Hread.
  inversion Hmain as [cause Hr|texts' Hr Hcp|texts' e delta Hr Hcp Hrun
                      |texts' delta Hr Hcp Hrun
                      |texts' last delta Hr Hcp Hrun Hout
                      |texts' last delta Hr Hcp Hrun Hout]; subst;
    try congruence;
    try (rewrite Hshell in *; discriminate);
    rewrite Hread in Hr; injection Hr as <-;
    destruct (loop_run_success _ _ _ _ _ _ Hrun eq_refl Hshell Hvalid)
      as [Hres [Hlen [Hnth Hw]]];
    try discriminate.
  injection Hres as ->.
  destruct (loop_run_commands _ _ _ _ _ _ Hrun) as [Hcopies Hsub].
  pose proof (loop_run_operations _ _ _ _ _ _ Hrun eq_refl Hshell Hvalid) as Hops.
  eexists. split; [reflexivity|].
  split.
  { unfold run_operations. cbn [map event_of]. rewrite map_app, <- Hops.
    reflexivity. }
  rewrite ffmpeg_invocations_cons_cp, ffmpeg_invocations_app.
  change (ffmpeg_invocations [Subprocess (cp _ output_video) true])
    with (@nil (string * bool)).
  rewrite app_nil_r.
  split; [exact Hlen|]. split.
  { intros i d Hd. destruct (Hnth i d Hd) as [command [Hg Hi]].
    cbn [Nat.add] in Hg.
    pose proof (generate_is_overlay_command _ _ _ _ _ Hg) as Hc.
    fold (step_filter i d) in Hc. subst command. now split. }
  split; [reflexivity|].
  split; [|split; [|split]].
  - cbn [subprocesses flat_map app]. fold (subprocesses (delta ++ [Subprocess (cp (working_video (0 + Datatypes.length texts)) output_video) true])).
    rewrite subprocesses_app, Hsub. reflexivity.
  - rewrite copies_cons_cp, copies_app, Hcopies. reflexivity.
  - change (written_files (delta ++ [Subprocess (cp (working_video (0 + Datatypes.length texts)) output_video) true])
            = map text_file_path (seq 0 (Datatypes.length texts))).
    rewrite written_files_app, Hw. apply app_nil_r.
  - intros Hdiff Houtside. unfold run_operations. constructor.
    + cbn [destination working_video].
      destruct (join_tmpdir "temp.mp4" eq_refl) as [rest Hjoin].
      rewrite Hjoin. intros E. symmetry in E.
      now apply (outside_tmpdir _ _ Houtside E).
    + apply Forall_app. split; [now apply chain_destinations|].
      constructor; [|constructor]. cbn [destination]. congruence.
Qed.


(** Whatever the outcome, step [i] of the loop writes its text file, reads
    the working video of step [i] and writes the output of step [i]. *)
Lemma loop_run_shape idx texts temp tr r delta :
  loop_run idx texts temp tr r delta ->
  temp = working_video idx ->
  (forall path, In path (written_files delta) ->
                exists i, path = text_file_path i)
  /\ (forall i run,
         nth_error (ffmpeg_invocations delta) i = Some run ->
         exists d,
           generate_ffmpeg_command (working_video (idx + i))
             (text_file_path (idx + i)) d (step_video (idx + i)) = Ok (fst run)).
Proof.
  induction 1 as [idx temp tr|idx d rest temp tr e Hg
                  |idx d rest temp tr command Hg Hsh
                  |idx d rest temp tr command r delta Hg Hsh Hrun IH];
    intros Htemp; subst temp.
  - split; [intros path []|intros [|i] run; discriminate].
  - split; [|intros [|i] run; discriminate].
    intros path [<-|[]]. now exists idx.
  - destruct (generate_is_ffmpeg _ _ _ _ _ Hg) as [Hf _].
    rewrite ffmpeg_invocations_cons_write,
      ffmpeg_invocations_cons_ffmpeg by assumption.
    split.
    + intros path [<-|[]]. now exists idx.
    + intros [|[|i]] run; try discriminate.
      intros [= <-]. exists d. now rewrite Nat.add_0_r.
  - destruct (generate_is_ffmpeg _ _ _ _ _ Hg) as [Hf _].
    destruct (IH eq_refl) as [Hw Hinv].
    rewrite ffmpeg_invocations_cons_write,
      ffmpeg_invocations_cons_ffmpeg by assumption.
    split.
    + intros path [<-|Hin]; [now exists idx|now apply Hw].
    + intros [|i] run.
      * intros [= <-]. exists d. now rewrite Nat.add_0_r.
      * intros Hi. rewrite Nat.add_succ_r. now apply (Hinv i run).
Qed.

(** C2.  If the run of the tool for step [k] fails, [main] returns at once:
    there is no run after it, and the only copy performed is the first one,
    of the input into the temporary directory, so the copy to the output
    path never happens; everything written until then is a text file or a
    step output in the temporary directory. *)
Theorem failed_step_stops (input_video text_file output_video : string)
    (k : nat) (command : string) :
  nth_error
    (ffmpeg_invocations (snd (main input_video text_file output_video []))) k
  = Some (command, false) ->
  fst (main input_video text_file output_video []) = Ok tt
  /\ List.length
       (ffmpeg_invocations (snd (main input_video text_file output_video [])))
     = S k
  /\ copies (snd (main input_video text_file output_video []))
     = [(cp input_video (working_video 0), true)]
  /\ (forall path,
         In path (written_files (snd (main input_video text_file output_video []))) ->
         exists i, path = text_file_path i)
  /\ (forall i run,
         nth_error
           (ffmpeg_invocations (snd (main input_video text_file output_video []))) i
         = Some run ->
         exists d,
           generate_ffmpeg_command (working_video i) (text_file_path i) d
             (step_video i) = Ok (fst run)).
Proof.
  pose proof (main_runs input_video text_file output_video) as Hmain.
  destruct (main input_video text_file output_video []) as [r tr].
  cbn [fst snd] in *. intros Hk.
  inversion Hmain as [cause Hr|texts' Hr Hcp|texts' e delta Hr Hcp Hrun
                      |texts' delta Hr Hcp Hrun
                      |texts' last delta Hr Hcp Hrun Hout
                      |texts' last delta Hr Hcp Hrun Hout]; subst.
  - now destruct k.
  - now destruct k.
  - rewrite ffmpeg_invocations_cons_cp in Hk.
    destruct (loop_run_failed _ _ _ _ _ _ Hrun _ _ Hk); discriminate.
  - rewrite ffmpeg_invocations_cons_cp in *.
    destruct (loop_run_failed _ _ _ _ _ _ Hrun _ _ Hk) as [_ Hlen].
    destruct (loop_run_commands _ _ _ _ _ _ Hrun) as [Hcopies Hsub].
    destruct (loop_run_shape _ _ _ _ _ _ Hrun eq_refl) as [Hw Hinv].
    repeat split; auto.
    now rewrite copies_cons_cp, Hcopies.
  - rewrite ffmpeg_invocations_cons_cp, ffmpeg_invocations_app in Hk.
    change (ffmpeg_invocations [_; _]) with (@nil (string * bool)) in Hk.
    rewrite app_nil_r in Hk.
    destruct (loop_run_failed _ _ _ _ _ _ Hrun _ _ Hk); discriminate.
  - rewrite ffmpeg_invocations_cons_cp, ffmpeg_invocations_app in Hk.
    change (ffmpeg_invocations [_]) with (@nil (string * bool)) in Hk.
    rewrite app_nil_r in Hk.
    destruct (loop_run_failed _ _ _ _ _ _ Hrun _ _ Hk); discriminate.
Qed.

Lemma convert_raises (time_str : string) (e : exn) :
  convert_to_seconds time_str = Raise e -> exists bad, e = ValueError_float bad.
Proof.
  unfold convert_to_seconds.
  assert (Hf : forall parts e', floats parts = Raise e' ->
                                exists bad, e' = ValueError_float bad).
  { induction parts as [|p parts IH]; intros e'; simpl; [discriminate|].
    destruct (py_float p); [|intros [= <-]; now exists p].
    destruct (floats parts) as [xs|e0]; [discriminate|].
    intros [= <-]. now apply IH. }
  destruct (floats (PyStr.split ":" time_str)) as [parts|e0] eqn:Hparts.
  - destruct parts as [|p0 [|p1 [|p2 [|p3 parts]]]]; try discriminate.
    exfalso. destruct (PyStr.split ":" time_str) as [|p ps] eqn:Hs.
    + now apply (split_not_nil ":" time_str).
    + simpl in Hparts. destruct (py_float p); [|discriminate].
      destruct (floats ps); discriminate.
  - intros [= <-]. now apply (Hf _ _ Hparts).
Qed.

Lemma loop_run_raises idx texts temp tr e delta :
  loop_run idx texts temp tr (Raise e) delta ->
  exists bad, e = ValueError_float bad.
Proof.
  intros Hrun. remember (Raise e) as r eqn:Hr.
  induction Hrun as [idx temp tr|idx d rest temp tr e0 Hg
                     |idx d rest temp tr command Hg Hsh
                     |idx d rest temp tr command r delta Hg Hsh Hrun IH];
    try discriminate; auto.
  injection Hr as ->. unfold generate_ffmpeg_command, rbind in Hg.
  destruct (convert_to_seconds (start_time d)) as [s|e1] eqn:Hs.
  - destruct (convert_to_seconds (end_time d)) as [e2|e1] eqn:He; [discriminate|].
    injection Hg as <-. now apply (convert_raises _ _ He).
  - injection Hg as <-. now apply (convert_raises _ _ Hs).
Qed.

(** A run in which the tool failed is a run that returned. *)
Lemma main_run_failed_returns input_video text_file output_video r tr k command :
  main_run input_video text_file output_video r tr ->
  nth_error (ffmpeg_invocations tr) k = Some (command, false) ->
  r = Ok tt.
Proof.
  intros Hmain Hk.
  inversion Hmain as [cause Hr|texts' Hr Hcp|texts' e delta Hr Hcp Hrun
                      |texts' delta Hr Hcp Hrun
                      |texts' last delta Hr Hcp Hrun Hout
                      |texts' last delta Hr Hcp Hrun Hout]; subst;
    try reflexivity.
  - now destruct k.
  - rewrite ffmpeg_invocations_cons_cp in Hk.
    destruct (loop_run_failed _ _ _ _ _ _ Hrun _ _ Hk); discriminate.
  - rewrite ffmpeg_invocations_cons_cp, ffmpeg_invocations_app in Hk.
    change (ffmpeg_invocations [_; _]) with (@nil (string * bool)) in Hk.
    rewrite app_nil_r in Hk.
    destruct (loop_run_failed _ _ _ _ _ _ Hrun _ _ Hk); discriminate.
Qed.

(** C3, as amended.  The exit status is 0 on success, when both copies
    have been made; and it is 0 as well when parsing fails and when a run
    of the tool fails: [main] logs the error and returns. *)
Theorem exit_status_spec (input_video text_file output_video : string) :
  (forall e tr, parse_text_file text_file [] = (Raise e, tr) ->
                exit_status (fst (main input_video text_file output_video [])) = 0%Z)
  /\ (forall k command,
         nth_error
           (ffmpeg_invocations (snd (main input_video text_file output_video []))) k
         = Some (command, false) ->
         exit_status (fst (main input_video text_file output_video [])) = 0%Z)
  /\ (forall first last,
         copies (snd (main input_video text_file output_video []))
         = [(first, true); (last, true)] ->
         exit_status (fst (main input_video text_file output_video [])) = 0%Z).
Proof.
  split; [|split].
  - intros e tr Hparse. rewrite main_unfold.
    rewrite parse_text_file_run in Hparse.
    destruct (read_instructions text_file); [discriminate|reflexivity].
  - intros k command Hk.
    now rewrite (main_run_failed_returns _ _ _ _ _ _ _
                   (main_runs input_video text_file output_video) Hk).
  - pose proof (main_runs input_video text_file output_video) as Hmain.
    destruct (main input_video text_file output_video []) as [r tr].
    cbn [fst snd] in *. intros first last Hcopies.
    inversion Hmain as [cause Hr|texts' Hr Hcp|texts' e delta Hr Hcp Hrun
                        |texts' delta Hr Hcp Hrun
                        |texts' final delta Hr Hcp Hrun Hout
                        |texts' final delta Hr Hcp Hrun Hout]; subst;
      try reflexivity.
    + discriminate Hcopies.
    + rewrite copies_cons_cp in Hcopies.
      destruct (loop_run_commands _ _ _ _ _ _ Hrun) as [Hc _].
      rewrite Hc in Hcopies. discriminate.
    + rewrite copies_cons_cp, copies_app in Hcopies.
      destruct (loop_run_commands _ _ _ _ _ _ Hrun) as [Hc _].
      rewrite Hc in Hcopies. discriminate.
Qed.

(** C4.  If the instruction file cannot be opened, or holds a row that is
    not a comment and has the wrong number of fields or a field x, y or
    size that [int] rejects, then what [parse_text_file] does in its [try]
    raises some [cause], parsing raises a [RuntimeError] whose message
    wraps the text of that cause, and [main] logs it and returns without
    running any command or writing any file. *)
Theorem malformed_file_aborts (input_video text_file output_video : string) :
  (csv_rows text_file = None
   \/ exists rows bad,
        csv_rows text_file = Some rows /\ In bad rows /\ malformed bad) ->
  exists cause,
    read_instructions text_file = Raise cause
    /\ parse_text_file text_file []
       = (Raise (RuntimeError ("Error parsing text file: " ++ exn_str cause)),
          [LogError ("Failed to parse text file: " ++ exn_str cause)])
    /\ main input_video text_file output_video []
       = (Ok tt, [LogError ("Failed to parse text file: " ++ exn_str cause);
                  LogError ("Error parsing text file: " ++ exn_str cause)])
    /\ subprocesses (snd (main input_video text_file output_video [])) = []
    /\ written_files (snd (main input_video text_file output_video [])) = [].
Proof.
  intros Hbad.
  assert (Hread : exists cause, read_instructions text_file = Raise cause).
  { unfold read_instructions.
    destruct Hbad as [->|[rows [bad [-> [Hin Hm]]]]]; [eexists; reflexivity|].
    destruct (parse_row_malformed _ Hm) as [e He].
    apply (parse_rows_raise rows [] bad e Hin He). }
  destruct Hread as [cause Hread]. exists cause.
  rewrite main_unfold, parse_text_file_run, Hread. repeat split.
Qed.

End Driver.

(** ** Font previews *)

Section Preview.
Context `{Builtins} `{World}.
Import PreviewFonts.

Lemma generate_preview_video_run (font_path output_path : string) (tr : list event) :
  (forall tr' message, stdout_ok tr' message = true) ->
  generate_preview_video font_path output_path tr =
    if shell tr (preview_command font_path output_path)
    then (Ok tt, tr ++ [Subprocess (preview_command font_path output_path) true])%list
    else (Ok tt,
          tr ++ [Subprocess (preview_command font_path output_path) false;
                 Print ("Failed to create preview for " ++ font_name font_path
                        ++ ": "
                        ++ exn_str (CalledProcessError
                                      (preview_command font_path output_path)))])%list.
Proof.
  intros Hstdout. unfold generate_preview_video, try_except, subprocess_run, print.
  destruct (shell tr (preview_command font_path output_path)); cbn [is_CalledProcessError];
    [reflexivity|].
  rewrite Hstdout. now rewrite <- app_assoc.
Qed.

Lemma preview_loop_run (fonts : list string) :
  (forall tr' message, stdout_ok tr' message = true) ->
  forall tr,
  exists delta,
    preview_loop fonts tr = (Ok tt, tr ++ delta)%list
    /\ map fst (subprocesses delta)
       = map (fun font => preview_command font (output_file font)) fonts
    /\ failures_logged delta.
Proof.
  intros Hstdout. induction fonts as [|font rest IH]; intros tr.
  - exists []. rewrite app_nil_r. repeat split.
  - cbn [preview_loop]. unfold bind at 1.
    rewrite generate_preview_video_run by exact Hstdout.
    destruct (shell tr (preview_command font (output_file font))) eqn:Hsh.
    + unfold bind at 1, print at 1. rewrite Hstdout, <- app_assoc.
      destruct (IH (tr ++ [Subprocess (preview_command font (output_file font)) true]
                       ++ [Print ("Created preview for " ++ OsPath.basename font)])%list)
        as [delta [Hrun [Hcmds Hlog]]].
      rewrite Hrun. eexists. split; [rewrite <- app_assoc; reflexivity|].
      split.
      * cbn [app subprocesses flat_map map fst]. fold (subprocesses delta).
        now rewrite Hcmds.
      * cbn [app failures_logged]. exact Hlog.
    + unfold bind at 1, print at 1. rewrite Hstdout, <- app_assoc.
      destruct (IH (tr ++ [Subprocess (preview_command font (output_file font)) false;
                           Print ("Failed to create preview for " ++ font_name font
                                  ++ ": "
                                  ++ exn_str (CalledProcessError
                                                (preview_command font (output_file font))))]
                       ++ [Print ("Created preview for " ++ OsPath.basename font)])%list)
        as [delta [Hrun [Hcmds Hlog]]].
      rewrite Hrun. eexists. split; [rewrite <- app_assoc; reflexivity|].
      split.
      * cbn [app subprocesses flat_map map fst]. fold (subprocesses delta).
        now rewrite Hcmds.
      * cbn [app failures_logged hd_error]. split; [|exact Hlog].
        now exists (font_name font).
Qed.

(** C8, as amended.  Once the output directory is there, and as long as
    the messages can be printed, whatever the outcome of each command,
    [main] runs the tool once for every font that [list_fonts] yields, in
    order; every failed command is followed at once by the message that
    reports it, and the loop goes on; [main] returns and the exit status
    is 0: no failure of the tool makes it non-zero.  But the directory is
    made outside any [try]: when that raises, the exception leaves [main]
    before any font is looked at, and the exit status is 1. *)
Theorem preview_batch_continues :
  (mkdir_ok output_dir = true ->
   (forall tr message, stdout_ok tr message = true) ->
   exists tr,
     main [] = (Ok tt, tr)
     /\ map fst (subprocesses tr)
        = map (fun font => preview_command font (output_file font))
              (list_fonts font_dir)
     /\ failures_logged tr
     /\ exit_status (fst (main [])) = 0%Z)
  /\ (mkdir_ok output_dir = false ->
      main [] = (Raise (OSError output_dir), [MkdirFailed output_dir])
      /\ exit_status (fst (main [])) = 1%Z).
Proof.
  split.
  - intros Hdir Hstdout.
    destruct (preview_loop_run (list_fonts font_dir) Hstdout [Mkdir output_dir])
      as [delta [Hrun [Hcmds Hlog]]].
    assert (Hmain : main [] = (Ok tt, Mkdir output_dir :: delta)).
    { unfold main, bind, mkdir. rewrite Hdir. cbn [app]. now rewrite Hrun. }
    rewrite Hmain. exists (Mkdir output_dir :: delta).
    split; [reflexivity|].
    split; [exact Hcmds|]. split; [exact Hlog|reflexivity].
  - intros Hdir.
    assert (Hmain : main []
                    = (Raise (OSError output_dir), [MkdirFailed output_dir])).
    { unfold main, bind, mkdir. now rewrite Hdir. }
    rewrite Hmain. now split.
Qed.

(** C9, as amended.  The display name is the part of the basename before
    its first dot: for a basename [stem.extension] whose stem holds no dot,
    it is the stem, and that is what the command renders under
    [Sample Text]. *)
Theorem font_name_is_first_piece (font_path stem extension output_path : string) :
  OsPath.basename font_path = stem ++ "." ++ extension ->
  PyStr.mem "." stem = false ->
  font_name font_path = stem
  /\ PyStr.contains (":text='Sample Text" ++ PyStr.newline ++ stem ++ "':")
       (preview_command font_path output_path).
Proof.
  intros Hbase Hstem.
  assert (Hname : font_name font_path = stem).
  { unfold font_name. rewrite Hbase.
    change ("." ++ extension) with (String "." extension).
    now rewrite split_app_sep. }
  split; [exact Hname|].
  unfold preview_command. rewrite Hname.
  exists ("ffmpeg -f lavfi -i color=c=white:s=640x480:d=5 -vf " ++ PyStr.dquote
          ++ "drawtext=fontfile=" ++ font_path),
         ("fontsize=48:fontcolor=black:x=(w-text_w)/2:y=(h-text_h)/2"
          ++ PyStr.dquote ++ " -y " ++ output_path).
  unfold PyStr.dquote, PyStr.newline. rewrite ?append_assoc. cbn [append].
  reflexivity.
Qed.

End Preview.

(** C9 as stated fails when the stem holds a dot: the basename
    [Noto.Sans.otf] is the stem [Noto.Sans] and the extension [otf], and the
    display name is [Noto]. *)
Lemma font_name_counterexample :
  OsPath.basename "/usr/share/fonts/truetype/noto/Noto.Sans.otf"
  = "Noto.Sans" ++ "." ++ "otf"
  /\ PreviewFonts.font_name "/usr/share/fonts/truetype/noto/Noto.Sans.otf"
     <> "Noto.Sans".
Proof. split; [reflexivity|discriminate]. Qed.


(** ** The properties at work on the reference world *)

Lemma empty_row_raises_witness :
  @AddTextToVid.parse_rows Reference.builtins
    [["00:00:00"; "00:00:05"; "Hello"; "10"; "20"; "Arial"; "24"]; []] []
  = Raise IndexError
  /\ @AddTextToVid.main Reference.builtins (Reference.world Reference.never)
       "in.mp4" "blank-line.csv" "out.mp4" []
     = (Ok tt,
        [LogError "Failed to parse text file: list index out of range";
         LogError "Error parsing text file: list index out of range"]).
Proof.
  split; [|reflexivity].
  apply (@empty_row_raises Reference.builtins
           [["00:00:00"; "00:00:05"; "Hello"; "10"; "20"; "Arial"; "24"]] [] []).
  intros row [<-|[]]. eexists. reflexivity.
Defined.

Lemma overlay_chain_witness :
  exists tr,
    @AddTextToVid.main Reference.builtins (Reference.world Reference.never)
      "in.mp4" "two.csv" "out.mp4" [] = (Ok tt, tr)
    /\ List.length (ffmpeg_invocations tr) = 2
    /\ copies tr = [("cp in.mp4 /tmp/tmpk3x9/temp.mp4", true);
                    ("cp /tmp/tmpk3x9/temp_1.mp4 out.mp4", true)]
    /\ written_files tr = ["/tmp/tmpk3x9/text_0.txt"; "/tmp/tmpk3x9/text_1.txt"]
    /\ Forall (fun op => destination op <> "in.mp4")
         (@run_operations Reference.builtins (Reference.world Reference.never)
            "in.mp4" "out.mp4" [Reference.hello; Reference.later]).
Proof.
  destruct (@overlay_chain Reference.builtins (Reference.world Reference.never)
              "in.mp4" "two.csv" "out.mp4" [Reference.hello; Reference.later])
    as [tr [Hmain [_ [Hlen [_ [_ [_ [Hcopies [Hwritten Hdest]]]]]]]]].
  - reflexivity.
  - intros d [<-|[<-|[]]]; eexists; eexists; split; reflexivity.
  - reflexivity.
  - exists tr. repeat split; try assumption.
    apply Hdest; [discriminate|reflexivity].
Defined.

(** C1 as stated fails when the user names the input as the output path:
    on a well-formed file of one entry, with every command succeeding, the
    last operation of the run copies the output of step 0 onto the input
    video. *)
Lemma overlay_chain_counterexample :
  @AddTextToVid.parse_text_file Reference.builtins
    (Reference.world Reference.never) "hello.csv" []
  = (Ok [Reference.hello], [])
  /\ @AddTextToVid.main Reference.builtins (Reference.world Reference.never)
       "in.mp4" "hello.csv" "in.mp4" []
     = (Ok tt,
        map event_of
          (@run_operations Reference.builtins (Reference.world Reference.never)
             "in.mp4" "in.mp4" [Reference.hello]))
  /\ last (@run_operations Reference.builtins (Reference.world Reference.never)
             "in.mp4" "in.mp4" [Reference.hello]) (Write "" "")
     = Copy "/tmp/tmpk3x9/temp_0.mp4" "in.mp4"
  /\ In "in.mp4"
       (map destination
          (@run_operations Reference.builtins (Reference.world Reference.never)
             "in.mp4" "in.mp4" [Reference.hello])).
Proof.
  split; [reflexivity|]. split; [reflexivity|]. split; [reflexivity|].
  cbn. auto.
Qed.

Lemma failed_step_stops_witness :
  fst (@AddTextToVid.main Reference.builtins
         (Reference.world Reference.second_step)
         "in.mp4" "two.csv" "out.mp4" []) = Ok tt
  /\ List.length
       (ffmpeg_invocations
          (snd (@AddTextToVid.main Reference.builtins
                  (Reference.world Reference.second_step)
                  "in.mp4" "two.csv" "out.mp4" []))) = 2
  /\ copies
       (snd (@AddTextToVid.main Reference.builtins
               (Reference.world Reference.second_step)
               "in.mp4" "two.csv" "out.mp4" []))
     = [("cp in.mp4 /tmp/tmpk3x9/temp.mp4", true)].
Proof.
  destruct (@failed_step_stops Reference.builtins
              (Reference.world Reference.second_step)
              "in.mp4" "two.csv" "out.mp4" 1
              match @AddTextToVid.generate_ffmpeg_command Reference.builtins
                      "/tmp/tmpk3x9/temp_0.mp4" "/tmp/tmpk3x9/text_1.txt"
                      Reference.later "/tmp/tmpk3x9/temp_1.mp4"
              with
              | Ok command => command
              | Raise _ => EmptyString
              end)
    as [Hres [Hlen [Hcopies _]]].
  - reflexivity.
  - repeat split; assumption.
Defined.

(** C3 as stated fails: when the instruction file cannot be opened,
    parsing raises, and when the run of the tool for the second entry
    fails, the step fails; in both runs [main] returns and the exit status
    is 0. *)
Lemma exit_status_counterexample :
  (exists message tr,
      @AddTextToVid.parse_text_file Reference.builtins
        (Reference.world Reference.never) "missing.csv" []
      = (Raise (RuntimeError message), tr))
  /\ exit_status
       (fst (@AddTextToVid.main Reference.builtins
               (Reference.world Reference.never)
               "in.mp4" "missing.csv" "out.mp4" [])) = 0%Z
  /\ (exists command,
         nth_error
           (ffmpeg_invocations
              (snd (@AddTextToVid.main Reference.builtins
                      (Reference.world Reference.second_step)
                      "in.mp4" "two.csv" "out.mp4" []))) 1
         = Some (command, false))
  /\ exit_status
       (fst (@AddTextToVid.main Reference.builtins
               (Reference.world Reference.second_step)
               "in.mp4" "two.csv" "out.mp4" [])) = 0%Z.
Proof.
  split; [eexists; eexists; reflexivity|].
  split; [reflexivity|].
  split; [eexists; reflexivity|reflexivity].
Qed.

Lemma exit_status_spec_witness :
  exit_status
    (fst (@AddTextToVid.main Reference.builtins
            (Reference.world Reference.never)
            "in.mp4" "missing.csv" "out.mp4" [])) = 0%Z
  /\ exit_status
       (fst (@AddTextToVid.main Reference.builtins
               (Reference.world Reference.second_step)
               "in.mp4" "two.csv" "out.mp4" [])) = 0%Z.
Proof.
  split.
  - destruct (@exit_status_spec Reference.builtins
                (Reference.world Reference.never)
                "in.mp4" "missing.csv" "out.mp4") as [Hparse _].
    eapply Hparse. reflexivity.
  - destruct (@exit_status_spec Reference.builtins
                (Reference.world Reference.second_step)
                "in.mp4" "two.csv" "out.mp4") as [_ [Hstep _]].
    eapply (Hstep 1). reflexivity.
Defined.

Lemma malformed_file_aborts_witness :
  exists cause,
    @AddTextToVid.main Reference.builtins (Reference.world Reference.never)
      "in.mp4" "short-row.csv" "out.mp4" []
    = (Ok tt,
       [LogError ("Failed to parse text file: "
                  ++ @exn_str Reference.builtins cause);
        LogError ("Error parsing text file: "
                  ++ @exn_str Reference.builtins cause)])
    /\ subprocesses
         (snd (@AddTextToVid.main Reference.builtins
                 (Reference.world Reference.never)
                 "in.mp4" "short-row.csv" "out.mp4" [])) = [].
Proof.
  destruct (@malformed_file_aborts Reference.builtins
              (Reference.world Reference.never)
              "in.mp4" "short-row.csv" "out.mp4")
    as [cause [_ [_ [Hmain [Hnone _]]]]].
  - right.
    exists [["00:00:00"; "00:00:05"; "Hello"; "10"; "20"; "Arial"; "24"];
            ["00:00:05"; "00:00:09"; "World"]],
           ["00:00:05"; "00:00:09"; "World"].
    split; [reflexivity|]. split; [right; left; reflexivity|].
    split; [reflexivity|left; discriminate].
  - exists cause. split; assumption.
Defined.

Lemma font_name_is_first_piece_witness :
  PreviewFonts.font_name "/usr/share/fonts/truetype/dejavu/DejaVuSans.ttf"
  = "DejaVuSans".
Proof.
  apply (font_name_is_first_piece
           "/usr/share/fonts/truetype/dejavu/DejaVuSans.ttf"
           "DejaVuSans" "ttf" "font_previews/DejaVuSans.ttf.mp4");
    reflexivity.
Defined.

Lemma preview_batch_continues_witness :
  exists tr,
    @PreviewFonts.main Reference.builtins (Reference.world Examples.mono) []
    = (Ok tt, tr)
    /\ List.length (subprocesses tr) = 3
    /\ List.length (filter (fun run => negb (snd run)) (subprocesses tr)) = 1
    /\ failures_logged (H := Reference.builtins) tr.
Proof.
  destruct (@preview_batch_continues Reference.builtins
              (Reference.world Examples.mono)) as [Hthere _].
  destruct (Hthere eq_refl (fun _ _ => eq_refl))
    as [tr [Hmain [Hcommands [Hlogged _]]]].
  exists tr. split; [exact Hmain|]. split; [|split; [|exact Hlogged]].
  - rewrite <- (length_map fst), Hcommands. reflexivity.
  - injection Hmain as <-. reflexivity.
Defined.

(** C8 as stated fails when [font_previews] cannot be made a directory:
    the exception leaves [main] and the exit status is 1. *)
Lemma preview_batch_counterexample :
  @PreviewFonts.main Reference.builtins Examples.occupied []
  = (Raise (OSError "font_previews"), [MkdirFailed "font_previews"])
  /\ exit_status
       (fst (@PreviewFonts.main Reference.builtins Examples.occupied []))
     = 1%Z.
Proof. split; reflexivity. Qed.

(** * Further properties *)

(** ** Instruction Parser *)

Section ParserMore.
Context `{Builtins} `{World}.
Import AddTextToVid.




(** X2.  Parsing stops at the first row that raises: the rows before it
    having been accepted, [parse_text_file] logs and wraps the exception of
    that row, whatever the rows after it hold. *)
Theorem parse_text_file_first_error (file_path : string)
    (before after : list (list string)) (bad : list string) (e : exn)
    (tr : list event) :
  csv_rows file_path = Some (before ++ bad :: after)%list ->
  (forall row, In row before -> exists parsed, parse_row row = Ok parsed) ->
  parse_row bad = Raise e ->
  parse_text_file file_path tr
  = (Raise (RuntimeError ("Error parsing text file: " ++ exn_str e)),
     tr ++ [LogError ("Failed to parse text file: " ++ exn_str e)])%list.
Proof.
  intros Hrows Hok Hbad.
  assert (Hraise : forall texts,
             parse_rows (before ++ bad :: after) texts = Raise e).
  { clear Hrows. induction before as [|row before IH]; intros texts.
    - cbn [app parse_rows]. now rewrite Hbad.
    - cbn [app parse_rows].
      destruct (Hok row (or_introl eq_refl)) as [parsed ->].
      destruct parsed; apply IH; intros r Hr; apply Hok; now right. }
  rewrite parse_text_file_run. unfold read_instructions.
  now rewrite Hrows, Hraise.
Qed.

End ParserMore.

(** ** Time Parser and Command Builder *)

Section TimeMore.
Context `{Builtins}.
Import AddTextToVid.

Lemma floats_first_bad (before after : list string) (bad : string) :
  (forall part, In part before -> py_float part <> None) ->
  py_float bad = None ->
  floats (before ++ bad :: after) = Raise (ValueError_float bad).
Proof.
  intros Hok Hbad. induction before as [|p before IH]; cbn [app floats].
  - now rewrite Hbad.
  - destruct (py_float p) eqn:Hp; [|now elim (Hok p (or_introl eq_refl))].
    rewrite IH; [reflexivity|]. intros q Hq. apply Hok. now right.
Qed.

Lemma floats_ok_all (parts : list string) (values : list float) :
  floats parts = Ok values ->
  forall part, In part parts -> py_float part <> None.
Proof.
  revert values. induction parts as [|p parts IH]; intros values Hf part Hin;
    [destruct Hin|].
  cbn [floats] in Hf. destruct (py_float p) eqn:Hp; [|discriminate].
  destruct (floats parts) as [xs|e] eqn:Hxs; [|discriminate].
  destruct Hin as [<-|Hin]; [congruence|]. now apply (IH xs).
Qed.

(** X3.  The Time Parser returns a value exactly when [float] accepts
    every colon-separated part, whatever their number (it never runs out
    of parts: a split is never empty); otherwise it raises the
    [ValueError] of the first part that [float] rejects. *)
Theorem convert_to_seconds_fails_on_first_rejected_part (time_str : string) :
  ((exists x, convert_to_seconds time_str = Ok x)
   <-> forall part, In part (PyStr.split ":" time_str) -> py_float part <> None)
  /\ (forall before bad after,
         PyStr.split ":" time_str = (before ++ bad :: after)%list ->
         (forall part, In part before -> py_float part <> None) ->
         py_float bad = None ->
         convert_to_seconds time_str = Raise (ValueError_float bad)).
Proof.
  split; [split|].
  - intros [x Hx]. unfold convert_to_seconds in Hx.
    destruct (floats (PyStr.split ":" time_str)) as [values|e] eqn:Hf;
      [|discriminate].
    now apply (floats_ok_all _ values).
  - intros Hall. unfold convert_to_seconds.
    destruct (floats_all _ Hall) as [values [Hv Hm]]. rewrite Hv.
    destruct values as [|v0 [|v1 [|v2 [|v3 values]]]]; try (eexists; reflexivity).
    destruct (PyStr.split ":" time_str) eqn:Hs; [|discriminate].
    now elim (split_not_nil ":" time_str).
  - intros before bad after Hs Hok Hbad. unfold convert_to_seconds.
    now rewrite Hs, floats_first_bad.
Qed.

Lemma convert_raises_rejected (time_str : string) (e : exn) :
  convert_to_seconds time_str = Raise e ->
  exists bad, e = ValueError_float bad /\ py_float bad = None
              /\ In bad (PyStr.split ":" time_str).
Proof.
  unfold convert_to_seconds.
  assert (Hf : forall parts e', floats parts = Raise e' ->
                 exists bad, e' = ValueError_float bad /\ py_float bad = None
                             /\ In bad parts).
  { induction parts as [|p parts IH]; intros e'; cbn [floats]; [discriminate|].
    destruct (py_float p) eqn:Hp.
    - destruct (floats parts) as [xs|e0]; [discriminate|].
      intros [= <-]. destruct (IH e0 eq_refl) as [bad [He [Hb Hin]]].
      exists bad. repeat split; auto. now right.
    - intros [= <-]. exists p. repeat split; auto. now left. }
  destruct (floats (PyStr.split ":" time_str)) as [parts|e0] eqn:Hparts.
  - destruct parts as [|p0 [|p1 [|p2 [|p3 parts]]]]; try discriminate.
    exfalso. destruct (PyStr.split ":" time_str) as [|p ps] eqn:Hs.
    + now apply (split_not_nil ":" time_str).
    + cbn [floats] in Hparts. destruct (py_float p); [|discriminate].
      destruct (floats ps); discriminate.
  - intros [= <-]. now apply Hf.
Qed.

(** X4.  The Command Builder returns a command exactly when both
    timestamps of the entry are accepted by the Time Parser; when it
    raises, it is with the [ValueError] of a rejected part of the start or
    end time, and it raises the same for any paths: the paths, the text,
    the position and the font are never examined. *)
Theorem generate_ffmpeg_command_fails_on_timestamps
    (input_video text_file : string) (d : text_dict) (output_video : string) :
  ((exists command,
       generate_ffmpeg_command input_video text_file d output_video = Ok command)
   <-> valid_times d)
  /\ (forall e,
         generate_ffmpeg_command input_video text_file d output_video = Raise e ->
         (exists bad,
             e = ValueError_float bad /\ py_float bad = None
             /\ (In bad (PyStr.split ":" (start_time d))
                 \/ In bad (PyStr.split ":" (end_time d))))
         /\ forall input_video' text_file' output_video',
              generate_ffmpeg_command input_video' text_file' d output_video'
              = Raise e).
Proof.
  unfold generate_ffmpeg_command, rbind, valid_times.
  destruct (convert_to_seconds (start_time d)) as [s|es] eqn:Hs.
  - destruct (convert_to_seconds (end_time d)) as [t|et] eqn:Ht.
    + split; [|discriminate].
      split; [now exists s, t|eexists; reflexivity].
    + split.
      * split; [intros [c Hc]; discriminate|].
        intros [s' [t' [_ Hc]]]. discriminate.
      * intros e [= <-]. split; [|reflexivity].
        destruct (convert_raises_rejected _ _ Ht) as [bad [He [Hb Hin]]].
        exists bad. auto.
  - split.
    + split; [intros [c Hc]; discriminate|].
      intros [s' [t' [Hc _]]]. discriminate.
    + intros e [= <-]. split; [|reflexivity].
      destruct (convert_raises_rejected _ _ Hs) as [bad [He [Hb Hin]]].
      exists bad. auto.
Qed.

End TimeMore.

(** ** Paths of the temporary directory *)

Section PathsMore.
Context `{World}.

Lemma append_cancel_l (a b c : string) : a ++ b = a ++ c -> b = c.
Proof. induction a as [|x a IH]; simpl; [auto|]. intros [= E]. auto. Qed.

Lemma append_cancel_r (a b c : string) : a ++ c = b ++ c -> a = b.
Proof.
  assert (Hlen : forall s t, String.length (s ++ t) = String.length s + String.length t).
  { induction s as [|x s IH]; intros t; simpl; [reflexivity|now rewrite IH]. }
  revert b. induction a as [|x a IH]; intros [|y b] E; simpl in E.
  - reflexivity.
  - apply (f_equal String.length) in E. simpl in E. rewrite Hlen in E. lia.
  - apply (f_equal String.length) in E. simpl in E. rewrite Hlen in E. lia.
  - injection E as -> E. f_equal. auto.
Qed.

Lemma of_Z_inj (z z' : Z) : PyStr.of_Z z = PyStr.of_Z z' -> z = z'.
Proof.
  unfold PyStr.of_Z. intros E. apply DecimalZ.to_int_inj.
  assert (Hnn : forall n, Z.to_int n <> Decimal.Pos Decimal.Nil
                          /\ Z.to_int n <> Decimal.Neg Decimal.Nil).
  { intros [|p|p]; simpl; split; try discriminate;
      intros [= E']; now apply (DecimalPos.Unsigned.to_uint_nonnil p). }
  assert (Hsome : forall n, NilZero.int_of_string (NilZero.string_of_int (Z.to_int n))
                            = Some (Z.to_int n)).
  { intros n. destruct (Hnn n). now apply NilZero.isi. }
  pose proof (Hsome z) as Hz. rewrite E, Hsome in Hz. now injection Hz.
Qed.

Lemma of_nat_inj (i j : nat) : PyStr.of_nat i = PyStr.of_nat j -> i = j.
Proof. unfold PyStr.of_nat. intros E. apply of_Z_inj in E. lia. Qed.

Lemma step_video_inj (i j : nat) : step_video i = step_video j -> i = j.
Proof.
  unfold step_video. intros E.
  apply append_cancel_l in E.
  change ("/temp_" ++ ?x) with ("/temp_" ++ x) in E.
  apply (append_cancel_l "/temp_") in E.
  apply append_cancel_r in E. now apply of_nat_inj.
Qed.

Lemma text_file_path_inj (i j : nat) : text_file_path i = text_file_path j -> i = j.
Proof.
  unfold text_file_path, OsPath.join.
  change (PyStr.startswith "/" ("text_" ++ ?x)) with false.
  cbv iota.
  destruct (String.eqb tmpdirname EmptyString || PyStr.endswith "/" tmpdirname);
    intros E; apply append_cancel_l in E.
  - apply (append_cancel_l "text_") in E.
    apply append_cancel_r in E. now apply of_nat_inj.
  - apply (append_cancel_l "/text_") in E.
    apply append_cancel_r in E. now apply of_nat_inj.
Qed.

Lemma temp_copy_not_step (j : nat) : working_video 0 <> step_video j.
Proof.
  unfold working_video, step_video, OsPath.join.
  change (PyStr.startswith "/" "temp.mp4") with false. cbv iota.
  destruct (String.eqb tmpdirname EmptyString || PyStr.endswith "/" tmpdirname);
    intros E; apply append_cancel_l in E; discriminate.
Qed.

(** X5.  The paths of the temporary directory never collide: a step never
    writes the video it reads nor an earlier working video, two steps have
    different outputs and different text files, and no text file is a
    video of the chain. *)
Theorem step_paths_are_fresh :
  (forall i j, i <= j -> working_video i <> step_video j)
  /\ (forall i j, step_video i = step_video j -> i = j)
  /\ (forall i j, text_file_path i = text_file_path j -> i = j)
  /\ (forall i j, text_file_path i <> step_video j)
  /\ (forall i, text_file_path i <> working_video 0).
Proof.
  split; [|split; [exact step_video_inj|split; [exact text_file_path_inj|]]].
  - intros [|i] j Hij; [apply temp_copy_not_step|].
    cbn [working_video]. intros E. apply step_video_inj in E. lia.
  - split.
    + intros i j. unfold text_file_path, step_video, OsPath.join.
      change (PyStr.startswith "/" ("text_" ++ ?x)) with false. cbv iota.
      destruct (String.eqb tmpdirname EmptyString || PyStr.endswith "/" tmpdirname);
        intros E; apply append_cancel_l in E; discriminate.
    + intros i. unfold text_file_path, working_video, OsPath.join.
      change (PyStr.startswith "/" ("text_" ++ ?x)) with false.
      change (PyStr.startswith "/" "temp.mp4") with false. cbv iota.
      destruct (String.eqb tmpdirname EmptyString || PyStr.endswith "/" tmpdirname);
        intros E; apply append_cancel_l in E; discriminate.
Qed.

End PathsMore.

(** ** Overlay Compositor *)

Section DriverMore.
Context `{Builtins} `{World}.
Import AddTextToVid.


Lemma loop_run_failed_subprocess idx texts temp tr r delta :
  loop_run idx texts temp tr r delta ->
  forall i command,
    nth_error (subprocesses delta) i = Some (command, false) ->
    r = Ok None /\ List.length (subprocesses delta) = S i.
Proof.
  intros Hrun i command Hi.
  destruct (loop_run_commands _ _ _ _ _ _ Hrun) as [_ Hsub].
  rewrite Hsub in *. now apply (loop_run_failed _ _ _ _ _ _ Hrun i command).
Qed.

(** X7.  [main] stops at the first shell command that fails, be it a copy
    or a run of the tool: a failed command is the last command of the
    run. *)
Theorem main_stops_at_first_failure (input_video text_file output_video : string)
    (i : nat) (command : string) :
  nth_error (subprocesses (snd (main input_video text_file output_video []))) i
  = Some (command, false) ->
  List.length (subprocesses (snd (main input_video text_file output_video [])))
  = S i.
Proof.
  pose proof (main_runs input_video text_file output_video) as Hmain.
  destruct (main input_video text_file output_video []) as [r tr].
  cbn [fst snd] in *. intros Hi.
  inversion Hmain as [cause Hr|texts' Hr Hcp|texts' e delta Hr Hcp Hrun
                      |texts' delta Hr Hcp Hrun
                      |texts' last delta Hr Hcp Hrun Hout
                      |texts' last delta Hr Hcp Hrun Hout]; subst.
  - now destruct i.
  - destruct i as [|[|i]]; try discriminate. reflexivity.
  - destruct i as [|i]; [discriminate|].
    change (nth_error (subprocesses delta) i = Some (command, false)) in Hi.
    destruct (loop_run_failed_subprocess _ _ _ _ _ _ Hrun _ _ Hi); discriminate.
  - destruct i as [|i]; [discriminate|].
    change (nth_error (subprocesses delta) i = Some (command, false)) in Hi.
    destruct (loop_run_failed_subprocess _ _ _ _ _ _ Hrun _ _ Hi) as [_ Hlen].
    change (S (List.length (subprocesses delta)) = S (S i)). now rewrite Hlen.
  - destruct i as [|i]; [discriminate|].
    change (nth_error (subprocesses (delta ++ [Subprocess (cp last output_video) false;
              LogError ("Failed to save output video: "
                     ++ exn_str (CalledProcessError (cp last output_video)))])) i
            = Some (command, false)) in Hi.
    change (S (List.length (subprocesses (delta ++ [Subprocess (cp last output_video) false;
              LogError ("Failed to save output video: "
                     ++ exn_str (CalledProcessError (cp last output_video)))])))
            = S (S i)).
    rewrite subprocesses_app in *.
    change (subprocesses [_; _]) with [(cp last output_video, false)] in *.
    rewrite length_app. cbn [List.length].
    destruct (Nat.lt_ge_cases i (List.length (subprocesses delta))) as [Hlt|Hge].
    + rewrite nth_error_app1 in Hi by assumption.
      destruct (loop_run_failed_subprocess _ _ _ _ _ _ Hrun _ _ Hi); discriminate.
    + rewrite nth_error_app2 in Hi by assumption.
      destruct (i - List.length (subprocesses delta)) as [|[|k]] eqn:Hk;
        try discriminate. lia.
  - destruct i as [|i]; [discriminate|].
    change (nth_error (subprocesses (delta ++ [Subprocess (cp last output_video) true])) i
            = Some (command, false)) in Hi.
    rewrite subprocesses_app in Hi.
    change (subprocesses [_]) with [(cp last output_video, true)] in Hi.
    destruct (Nat.lt_ge_cases i (List.length (subprocesses delta))) as [Hlt|Hge].
    + rewrite nth_error_app1 in Hi by assumption.
      destruct (loop_run_failed_subprocess _ _ _ _ _ _ Hrun _ _ Hi); discriminate.
    + rewrite nth_error_app2 in Hi by assumption.
      destruct (i - List.length (subprocesses delta)) as [|[|k]]; discriminate.
Qed.

End DriverMore.

Section DriverMore2.
Context `{Builtins} `{World}.
Import AddTextToVid.

(** A loop that ran to its end ran the tool once per entry, with success. *)
Lemma loop_run_completed idx texts temp tr last delta :
  loop_run idx texts temp tr (Ok (Some last)) delta ->
  temp = working_video idx ->
  last = working_video (idx + List.length texts)
  /\ List.length (ffmpeg_invocations delta) = List.length texts
  /\ Forall (fun run => snd run = true) (ffmpeg_invocations delta).
Proof.
  intros Hrun. remember (Ok (Some last)) as r eqn:Hr.
  induction Hrun as [idx temp tr|idx d rest temp tr e Hg
                     |idx d rest temp tr command Hg Hsh
                     |idx d rest temp tr command r delta Hg Hsh Hrun IH];
    intros Htemp; try discriminate.
  - injection Hr as <-. subst temp. rewrite Nat.add_0_r. repeat split.
    constructor.
  - destruct (generate_is_ffmpeg _ _ _ _ _ Hg) as [Hf _].
    destruct (IH Hr eq_refl) as [Hlast [Hlen Hall]].
    rewrite ffmpeg_invocations_cons_write,
      ffmpeg_invocations_cons_ffmpeg by assumption.
    cbn [List.length]. rewrite Nat.add_succ_r.
    split; [exact Hlast|]. split; [now rewrite Hlen|].
    constructor; [reflexivity|exact Hall].
Qed.

(** X8.  A failed copy ends the run with status 1.  Either it is the copy
    of the input, and it is the only command of the run, with the error
    logged and raised as a [RuntimeError]; or it is the copy to the output
    path, the tool having run with success once for every entry, and the
    [RuntimeError] is that of the saving. *)
Theorem failed_copy_raises (input_video text_file output_video command : string) :
  In (command, false)
     (copies (snd (main input_video text_file output_video []))) ->
  exit_status (fst (main input_video text_file output_video [])) = 1%Z
  /\ ((command = cp input_video (working_video 0)
       /\ main input_video text_file output_video []
          = (Raise (RuntimeError ("Failed to copy input video: "
                                  ++ exn_str (CalledProcessError command))),
             [Subprocess command false;
              LogError ("Failed to copy input video: "
                        ++ exn_str (CalledProcessError command))]))
      \/ (exists texts,
             parse_text_file text_file [] = (Ok texts, [])
             /\ command = cp (working_video (List.length texts)) output_video
             /\ fst (main input_video text_file output_video [])
                = Raise (RuntimeError ("Failed to save output video: "
                                       ++ exn_str (CalledProcessError command)))
             /\ List.length
                  (ffmpeg_invocations
                     (snd (main input_video text_file output_video [])))
                = List.length texts
             /\ Forall (fun run => snd run = true)
                  (ffmpeg_invocations
                     (snd (main input_video text_file output_video []))))).
Proof.
  pose proof (main_runs input_video text_file output_video) as Hmain.
  destruct (main input_video text_file output_video []) as [r tr] eqn:Emain.
  cbn [fst snd] in *. intros Hin.
  inversion Hmain as [cause Hr|texts' Hr Hcp|texts' e delta Hr Hcp Hrun
                      |texts' delta Hr Hcp Hrun
                      |texts' last delta Hr Hcp Hrun Hout
                      |texts' last delta Hr Hcp Hrun Hout]; subst.
  - destruct Hin.
  - destruct Hin as [[= <-]|[]]. split; [reflexivity|]. left. now split.
  - rewrite copies_cons_cp in Hin.
    destruct (loop_run_commands _ _ _ _ _ _ Hrun) as [Hc _]. rewrite Hc in Hin.
    destruct Hin as [|[]]; discriminate.
  - rewrite copies_cons_cp in Hin.
    destruct (loop_run_commands _ _ _ _ _ _ Hrun) as [Hc _]. rewrite Hc in Hin.
    destruct Hin as [|[]]; discriminate.
  - rewrite copies_cons_cp, copies_app in Hin.
    destruct (loop_run_commands _ _ _ _ _ _ Hrun) as [Hc _]. rewrite Hc in Hin.
    destruct Hin as [|[[= <-]|[]]]; [discriminate|].
    destruct (loop_run_completed _ _ _ _ _ _ Hrun eq_refl) as [-> [Hlen Hall]].
    split; [reflexivity|]. right. exists texts'.
    split; [rewrite parse_text_file_run, Hr; reflexivity|].
    split; [reflexivity|]. split; [reflexivity|].
    rewrite ffmpeg_invocations_cons_cp, ffmpeg_invocations_app.
    change (ffmpeg_invocations [_; _]) with (@nil (string * bool)).
    rewrite app_nil_r. now split.
  - rewrite copies_cons_cp, copies_app in Hin.
    destruct (loop_run_commands _ _ _ _ _ _ Hrun) as [Hc _]. rewrite Hc in Hin.
    destruct Hin as [|[|[]]]; discriminate.
Qed.

Lemma generate_ok_valid input_video text_file d output_video command :
  generate_ffmpeg_command input_video text_file d output_video = Ok command ->
  valid_times d.
Proof.
  intros Hg. destruct (generate_shape _ _ _ _ _ Hg) as [s [e [Hs [He _]]]].
  now exists s, e.
Qed.

Lemma generate_raises_rejected input_video text_file d output_video e :
  generate_ffmpeg_command input_video text_file d output_video = Raise e ->
  exists bad, e = ValueError_float bad.
Proof.
  unfold generate_ffmpeg_command, rbind.
  destruct (convert_to_seconds (start_time d)) as [s|e1] eqn:Hs.
  - destruct (convert_to_seconds (end_time d)) as [t|e2] eqn:Ht; [discriminate|].
    intros [= <-]. now apply (convert_raises _ _ Ht).
  - intros [= <-]. now apply (convert_raises _ _ Hs).
Qed.

(** Up to the first entry whose timestamps are rejected. *)
Lemma loop_run_bad_time (before : list text_dict) :
  forall idx d after temp tr r delta,
    loop_run idx (before ++ d :: after) temp tr r delta ->
    (forall tr command, shell tr command = true) ->
    (forall b, In b before -> valid_times b) ->
    ~ valid_times d ->
    (exists bad, r = Raise (ValueError_float bad))
    /\ List.length (ffmpeg_invocations delta) = List.length before
    /\ Forall (fun run => snd run = true) (ffmpeg_invocations delta)
    /\ file_writes delta
       = combine (map text_file_path (seq idx (S (List.length before))))
                 (map text (before ++ [d])).
Proof.
  induction before as [|b before IH];
    intros idx d after temp tr r delta Hrun Hshell Hvalid Hbad.
  - cbn [app] in Hrun.
    inversion Hrun as [|idx' d' rest' temp' tr' e Hg
                       |idx' d' rest' temp' tr' command Hg Hsh
                       |idx' d' rest' temp' tr' command r' delta' Hg Hsh Hrun'];
      subst.
    + destruct (generate_raises_rejected _ _ _ _ _ Hg) as [bad ->].
      split; [now exists bad|]. repeat split. constructor.
    + elim Hbad. now apply (generate_ok_valid _ _ _ _ _ Hg).
    + elim Hbad. now apply (generate_ok_valid _ _ _ _ _ Hg).
  - cbn [app] in Hrun.
    inversion Hrun as [|idx' d' rest' temp' tr' e Hg
                       |idx' d' rest' temp' tr' command Hg Hsh
                       |idx' d' rest' temp' tr' command r' delta' Hg Hsh Hrun'];
      subst.
    + destruct (generate_ok temp (text_file_path idx) b (step_video idx))
        as [command Hc]; [apply Hvalid; now left|congruence].
    + rewrite Hshell in Hsh. discriminate.
    + destruct (generate_is_ffmpeg _ _ _ _ _ Hg) as [Hf _].
      destruct (IH _ _ _ _ _ _ _ Hrun' Hshell
                  (fun b' Hb' => Hvalid b' (or_intror Hb')) Hbad)
        as [Hr [Hlen [Hall Hw]]].
      rewrite ffmpeg_invocations_cons_write,
        ffmpeg_invocations_cons_ffmpeg by assumption.
      split; [exact Hr|]. split; [cbn [List.length]; now rewrite Hlen|].
      split; [constructor; [reflexivity|exact Hall]|].
      change (file_writes (WriteFile (text_file_path idx) (text b)
                           :: Subprocess command true :: delta'))
        with ((text_file_path idx, text b) :: file_writes delta').
      rewrite Hw. reflexivity.
Qed.

(** A loop left by an exception has logged nothing. *)
Lemma loop_run_raised_silently idx texts temp tr e delta :
  loop_run idx texts temp tr (Raise e) delta -> log_errors delta = [].
Proof.
  intros Hrun. remember (Raise e) as r eqn:Hr.
  induction Hrun as [idx temp tr|idx d rest temp tr e0 Hg
                     |idx d rest temp tr command Hg Hsh
                     |idx d rest temp tr command r delta Hg Hsh Hrun IH];
    try discriminate; try reflexivity.
  now apply IH.
Qed.

(** X9.  Timestamps are not looked at when the file is parsed.  An entry
    whose timestamp [float] rejects is met at its own step: the input has
    been copied, the tool has run for every entry before it, its text
    file has been written; then the [ValueError] leaves [main] (status 1)
    with nothing logged and no copy to the output path. *)
Theorem bad_timestamp_surfaces_at_its_step
    (input_video text_file output_video : string)
    (before after : list text_dict) (d : text_dict) :
  parse_text_file text_file [] = (Ok (before ++ d :: after)%list, []) ->
  (forall tr command, shell tr command = true) ->
  (forall b, In b before -> valid_times b) ->
  ~ valid_times d ->
  (exists bad,
      fst (main input_video text_file output_video [])
      = Raise (ValueError_float bad))
  /\ exit_status (fst (main input_video text_file output_video [])) = 1%Z
  /\ subprocesses (snd (main input_video text_file output_video []))
     = ((cp input_video (working_video 0), true)
        :: ffmpeg_invocations (snd (main input_video text_file output_video [])))
  /\ List.length
       (ffmpeg_invocations (snd (main input_video text_file output_video [])))
     = List.length before
  /\ file_writes (snd (main input_video text_file output_video []))
     = combine (map text_file_path (seq 0 (S (List.length before))))
               (map text (before ++ [d]))
  /\ log_errors (snd (main input_video text_file output_video [])) = [].
Proof.
  intros Hparse Hshell Hvalid Hbad.
  pose proof (read_of_parse _ _ _ Hparse) as Hread.
  pose proof (main_runs input_video text_file output_video) as Hmain.
  destruct (main input_video text_file output_video []) as [r tr].
  cbn [fst snd] in *.
  inversion Hmain as [cause Hr|texts' Hr Hcp|texts' e delta Hr Hcp Hrun
                      |texts' delta Hr Hcp Hrun
                      |texts' last delta Hr Hcp Hrun Hout
                      |texts' last delta Hr Hcp Hrun Hout]; subst;
    try congruence;
    try (rewrite Hshell in *; discriminate);
    rewrite Hread in Hr; injection Hr as <-;
    destruct (loop_run_bad_time _ _ _ _ _ _ _ _ Hrun Hshell Hvalid Hbad)
      as [[bad Hres] [Hlen [Hall Hw]]];
    try discriminate.
  injection Hres as ->.
  destruct (loop_run_commands _ _ _ _ _ _ Hrun) as [Hc Hsub].
  split; [now exists bad|]. split; [reflexivity|].
  rewrite ffmpeg_invocations_cons_cp.
  split; [change (subprocesses (Subprocess ?c ?o :: delta))
            with ((c, o) :: subprocesses delta); now rewrite Hsub|].
  split; [exact Hlen|]. split; [exact Hw|].
  change (log_errors delta = []).
  now apply (loop_run_raised_silently _ _ _ _ _ _ Hrun).
Qed.

End DriverMore2.

Section DriverMore3.
Context `{Builtins} `{World}.
Import AddTextToVid.

Lemma loop_run_file_writes idx texts temp tr r delta :
  loop_run idx texts temp tr r delta ->
  exists n,
    n <= List.length texts
    /\ file_writes delta
       = firstn n (combine (map text_file_path (seq idx (List.length texts)))
                           (map text texts))
    /\ List.length (ffmpeg_invocations delta) <= n
    /\ n <= S (List.length (ffmpeg_invocations delta)).
Proof.
  induction 1 as [idx temp tr|idx d rest temp tr e Hg
                  |idx d rest temp tr command Hg Hsh
                  |idx d rest temp tr command r delta Hg Hsh Hrun IH].
  - exists 0. repeat split; auto.
  - exists 1. cbn [List.length]. repeat split; auto; lia.
  - destruct (generate_is_ffmpeg _ _ _ _ _ Hg) as [Hf _].
    exists 1. rewrite ffmpeg_invocations_cons_write,
      ffmpeg_invocations_cons_ffmpeg by assumption.
    cbn [List.length]. repeat split; auto; lia.
  - destruct (generate_is_ffmpeg _ _ _ _ _ Hg) as [Hf _].
    destruct IH as [n [Hn [Hw [Hlo Hhi]]]].
    exists (S n). rewrite ffmpeg_invocations_cons_write,
      ffmpeg_invocations_cons_ffmpeg by assumption.
    cbn [List.length]. repeat split; try lia.
    change (file_writes (WriteFile (text_file_path idx) (text d)
                         :: Subprocess command true :: delta))
      with ((text_file_path idx, text d) :: file_writes delta).
    rewrite Hw. reflexivity.
Qed.

Lemma generate_names_text_file input_video text_file d output_video command :
  generate_ffmpeg_command input_video text_file d output_video = Ok command ->
  PyStr.contains ("textfile='" ++ text_file ++ "'") command.
Proof.
  intros Hg. destruct (generate_shape _ _ _ _ _ Hg) as [s [e [_ [_ ->]]]].
  exists ("ffmpeg -i " ++ input_video ++ " -filter:v " ++ PyStr.dquote
          ++ "drawtext=fontfile=/usr/share/fonts/truetype/" ++ font d ++ ".ttf: "),
         (": x=" ++ PyStr.of_Z (fst (position d))
          ++ ": y=" ++ PyStr.of_Z (snd (position d))
          ++ ": fontsize=" ++ PyStr.of_Z (font_size d)
          ++ ": fontcolor=white: enable='between(t," ++ float_str s ++ ","
          ++ float_str e ++ ")'" ++ PyStr.dquote ++ " -codec:a copy "
          ++ output_video).
  unfold filter_string, PyStr.dquote. rewrite ?append_assoc. cbn [append].
  reflexivity.
Qed.

(** Each run of the tool comes right after the writing of its text file. *)
Lemma loop_run_write_then_run idx texts temp tr r delta :
  loop_run idx texts temp tr r delta ->
  forall i run,
    nth_error (ffmpeg_invocations delta) i = Some run ->
    exists d before after,
      nth_error texts i = Some d
      /\ delta = (before
                  ++ WriteFile (text_file_path (idx + i)) (text d)
                     :: Subprocess (fst run) (snd run) :: after)%list
      /\ List.length (ffmpeg_invocations before) = i
      /\ List.length (file_writes before) = i
      /\ PyStr.contains ("textfile='" ++ text_file_path (idx + i) ++ "'")
           (fst run).
Proof.
  induction 1 as [idx temp tr|idx d rest temp tr e Hg
                  |idx d rest temp tr command Hg Hsh
                  |idx d rest temp tr command r delta Hg Hsh Hrun IH];
    intros i run Hi.
  - now destruct i.
  - now destruct i.
  - destruct (generate_is_ffmpeg _ _ _ _ _ Hg) as [Hf _].
    rewrite ffmpeg_invocations_cons_write,
      ffmpeg_invocations_cons_ffmpeg in Hi by assumption.
    destruct i as [|[|i]]; try discriminate. injection Hi as <-.
    exists d, [], [LogError ("FFmpeg command failed with error: "
                             ++ exn_str (CalledProcessError command));
                   LogError ("FFmpeg command failed: "
                             ++ exn_str (CalledProcessError command))].
    rewrite Nat.add_0_r. repeat split.
    now apply (generate_names_text_file _ _ _ _ _ Hg).
  - destruct (generate_is_ffmpeg _ _ _ _ _ Hg) as [Hf _].
    rewrite ffmpeg_invocations_cons_write,
      ffmpeg_invocations_cons_ffmpeg in Hi by assumption.
    destruct i as [|i].
    + injection Hi as <-. exists d, [], delta. rewrite Nat.add_0_r.
      repeat split. now apply (generate_names_text_file _ _ _ _ _ Hg).
    + destruct (IH i run Hi) as [d' [before [after [Hd [Hdelta [Hn [Hw Hc]]]]]]].
      exists d', (WriteFile (text_file_path idx) (text d)
                  :: Subprocess command true :: before), after.
      rewrite Nat.add_succ_r. split; [exact Hd|]. split; [now rewrite Hdelta|].
      split.
      * rewrite ffmpeg_invocations_cons_write,
          ffmpeg_invocations_cons_ffmpeg by assumption.
        cbn [List.length]. now rewrite Hn.
      * split; [|exact Hc].
        change (file_writes (WriteFile (text_file_path idx) (text d)
                             :: Subprocess command true :: before))
          with ((text_file_path idx, text d) :: file_writes before).
        cbn [List.length]. now rewrite Hw.
Qed.

(** X10.  In every run on a parsed file, the text files written are those
    of the first [n] entries for some [n], in order, file [i] holding
    exactly the text of entry [i], and the tool has run at most [n] times.
    The text file of a step is written right before the tool runs on it:
    run [i] is the event that follows the writing of the text of entry [i]
    into text file [i], which its command names, and [i] text files and
    [i] runs come before them. *)
Theorem text_files_hold_the_texts (input_video text_file output_video : string)
    (texts : list text_dict) :
  parse_text_file text_file [] = (Ok texts, []) ->
  (exists n,
    n <= List.length texts
    /\ file_writes (snd (main input_video text_file output_video []))
       = firstn n (combine (map text_file_path (seq 0 (List.length texts)))
                           (map text texts))
    /\ List.length
         (ffmpeg_invocations (snd (main input_video text_file output_video [])))
       <= n)
  /\ (forall i run,
         nth_error
           (ffmpeg_invocations (snd (main input_video text_file output_video []))) i
         = Some run ->
         exists d before after,
           nth_error texts i = Some d
           /\ snd (main input_video text_file output_video [])
              = (before
                 ++ WriteFile (text_file_path i) (text d)
                    :: Subprocess (fst run) (snd run) :: after)%list
           /\ List.length (ffmpeg_invocations before) = i
           /\ List.length (file_writes before) = i
           /\ PyStr.contains ("textfile='" ++ text_file_path i ++ "'") (fst run)).
Proof.
  intros Hparse.
  pose proof (read_of_parse _ _ _ Hparse) as Hread.
  pose proof (main_runs input_video text_file output_video) as Hmain.
  destruct (main input_video text_file output_video []) as [r tr].
  cbn [fst snd] in *.
  assert (Hloop : forall delta r' tail,
             loop_run 0 texts (working_video 0)
               [Subprocess (cp input_video (working_video 0)) true] r' delta ->
             ffmpeg_invocations tail = [] -> file_writes tail = [] ->
             (exists n,
                 n <= List.length texts
                 /\ file_writes (Subprocess (cp input_video (working_video 0)) true
                                 :: delta ++ tail)
                    = firstn n (combine (map text_file_path
                                           (seq 0 (List.length texts)))
                                        (map text texts))
                 /\ List.length
                      (ffmpeg_invocations
                         (Subprocess (cp input_video (working_video 0)) true
                          :: delta ++ tail)) <= n)
             /\ (forall i run,
                    nth_error
                      (ffmpeg_invocations
                         (Subprocess (cp input_video (working_video 0)) true
                          :: delta ++ tail)) i = Some run ->
                    exists d before after,
                      nth_error texts i = Some d
                      /\ Subprocess (cp input_video (working_video 0)) true
                         :: delta ++ tail
                         = (before
                            ++ WriteFile (text_file_path i) (text d)
                               :: Subprocess (fst run) (snd run) :: after)%list
                      /\ List.length (ffmpeg_invocations before) = i
                      /\ List.length (file_writes before) = i
                      /\ PyStr.contains
                           ("textfile='" ++ text_file_path i ++ "'") (fst run))).
  { intros delta r' tail Hrun Htail Hwtail.
    rewrite ffmpeg_invocations_cons_cp, ffmpeg_invocations_app, Htail, app_nil_r.
    split.
    - destruct (loop_run_file_writes _ _ _ _ _ _ Hrun) as [n [Hn [Hw [Hlo _]]]].
      exists n. repeat split; auto.
      change (file_writes (Subprocess ?c ?o :: ?l)) with (file_writes l).
      unfold file_writes in *. rewrite flat_map_app, Hwtail, app_nil_r. exact Hw.
    - intros i run Hi.
      destruct (loop_run_write_then_run _ _ _ _ _ _ Hrun i run Hi)
        as [d [before [after [Hd [Hdelta [Hn [Hw Hc]]]]]]].
      exists d, (Subprocess (cp input_video (working_video 0)) true :: before),
             (after ++ tail)%list.
      split; [exact Hd|]. split.
      + rewrite Hdelta, <- app_assoc. reflexivity.
      + rewrite ffmpeg_invocations_cons_cp. repeat split; auto. }
  inversion Hmain as [cause Hr|texts' Hr Hcp|texts' e delta Hr Hcp Hrun
                      |texts' delta Hr Hcp Hrun
                      |texts' last delta Hr Hcp Hrun Hout
                      |texts' last delta Hr Hcp Hrun Hout]; subst;
    try congruence.
  - split.
    + exists 0. split; [lia|]. split; [reflexivity|apply le_n].
    + intros [|i] run Hi; discriminate.
  - rewrite Hread in Hr. injection Hr as <-.
    rewrite <- (app_nil_r delta). now apply (Hloop delta (Raise e) []).
  - rewrite Hread in Hr. injection Hr as <-.
    rewrite <- (app_nil_r delta). now apply (Hloop delta (Ok None) []).
  - rewrite Hread in Hr. injection Hr as <-.
    now apply (Hloop delta (Ok (Some last))).
  - rewrite Hread in Hr. injection Hr as <-.
    now apply (Hloop delta (Ok (Some last))).
Qed.


End DriverMore3.

(** ** Font previews *)

Section PathLemmas.

Lemma mem_app (c : ascii) (a b : string) :
  PyStr.mem c (a ++ b) = PyStr.mem c a || PyStr.mem c b.
Proof.
  induction a as [|x a IH]; [reflexivity|].
  simpl. now rewrite IH, orb_assoc.
Qed.

Lemma basename_no_slash (p : string) : PyStr.mem "/" (OsPath.basename p) = false.
Proof.
  induction p as [|c p IH]; [reflexivity|].
  cbn [OsPath.basename]. destruct (PyStr.mem "/" p) eqn:Hp; [exact IH|].
  destruct (Ascii.eqb c "/") eqn:Hc; [exact Hp|].
  cbn [PyStr.mem]. now rewrite Hc, Hp.
Qed.

Lemma basename_of_plain (file : string) :
  PyStr.mem "/" file = false -> OsPath.basename file = file.
Proof.
  destruct file as [|c file]; [reflexivity|].
  cbn [PyStr.mem OsPath.basename]. intros Hm.
  apply orb_false_iff in Hm as [Hc Hf]. now rewrite Hf, Hc.
Qed.

Lemma basename_after_slash (a file : string) :
  PyStr.mem "/" file = false -> OsPath.basename (a ++ String "/" file) = file.
Proof.
  intros Hf. induction a as [|c a IH].
  - cbn [append OsPath.basename]. now rewrite Hf.
  - change (String c a ++ String "/" file) with (String c (a ++ String "/" file)).
    cbn [OsPath.basename]. rewrite mem_app. cbn [PyStr.mem].
    rewrite Ascii.eqb_refl, orb_true_r. exact IH.
Qed.

Lemma rev_onto_snoc (a : string) (c : ascii) :
  forall acc,
    PyStr.rev_onto (a ++ String c EmptyString) acc
    = String c (PyStr.rev_onto a acc).
Proof.
  induction a as [|x a IH]; intros acc; [reflexivity|].
  cbn [append PyStr.rev_onto]. apply IH.
Qed.

Lemma snoc_cases (a : string) :
  a = EmptyString \/ exists a0 c, a = a0 ++ String c EmptyString.
Proof.
  induction a as [|x a IH]; [now left|right].
  destruct IH as [->|[a0 [c ->]]].
  - now exists EmptyString, x.
  - now exists (String x a0), c.
Qed.

Lemma endswith_slash (a : string) :
  PyStr.endswith "/" a = true -> exists a0, a = a0 ++ "/".
Proof.
  destruct (snoc_cases a) as [->|[a0 [c ->]]]; [discriminate|].
  unfold PyStr.endswith. rewrite rev_onto_snoc. cbn [PyStr.rev_onto PyStr.startswith].
  rewrite andb_true_r. intros Hc. apply Ascii.eqb_eq in Hc. subst c.
  now exists a0.
Qed.

Lemma startswith_slash_mem (s : string) :
  PyStr.mem "/" s = false -> PyStr.startswith "/" s = false.
Proof.
  destruct s as [|c s]; [reflexivity|]. cbn [PyStr.mem PyStr.startswith].
  intros Hm. apply orb_false_iff in Hm as [Hc _].
  rewrite Ascii.eqb_sym, Hc. reflexivity.
Qed.

(** Joining a directory and a file name, then taking the basename, gives
    the file name back. *)
Lemma basename_join (root file : string) :
  PyStr.mem "/" file = false ->
  OsPath.basename (OsPath.join root file) = file.
Proof.
  intros Hf. unfold OsPath.join. rewrite (startswith_slash_mem _ Hf).
  destruct (String.eqb root EmptyString) eqn:Hroot; cbn [orb].
  - apply String.eqb_eq in Hroot. subst root. now apply basename_of_plain.
  - destruct (PyStr.endswith "/" root) eqn:Hend.
    + destruct (endswith_slash _ Hend) as [a0 ->].
      rewrite append_assoc. now apply basename_after_slash.
    + now apply basename_after_slash.
Qed.

End PathLemmas.

Section PreviewMore.
Context `{Builtins} `{World}.
Import PreviewFonts.

(** X12.  [list_fonts] yields exactly the joined paths of the files that
    [os.walk] lists and whose name ends with [.ttf], [.otf] or [.ttc]; as
    file names hold no slash, the basename of every path it yields is such
    a name. *)
Theorem list_fonts_yields_font_files (dir path : string) :
  (In path (list_fonts dir)
   <-> exists root files file,
         In (root, files) (os_walk dir) /\ In file files
         /\ is_font_file file = true /\ path = OsPath.join root file)
  /\ ((forall root files file,
          In (root, files) (os_walk dir) -> In file files ->
          PyStr.mem "/" file = false) ->
      In path (list_fonts dir) ->
      is_font_file (OsPath.basename path) = true).
Proof.
  assert (Hiff : In path (list_fonts dir)
   <-> exists root files file,
         In (root, files) (os_walk dir) /\ In file files
         /\ is_font_file file = true /\ path = OsPath.join root file).
  { unfold list_fonts. rewrite in_flat_map. split.
    - intros [[root files] [Hwalk Hin]]. apply in_map_iff in Hin.
      destruct Hin as [file [<- Hfile]]. apply filter_In in Hfile.
      destruct Hfile as [Hfile Hfont]. now exists root, files, file.
    - intros [root [files [file [Hwalk [Hfile [Hfont ->]]]]]].
      exists (root, files). split; [exact Hwalk|].
      apply in_map. apply filter_In. now split. }
  split; [exact Hiff|].
  intros Hplain Hin. apply Hiff in Hin.
  destruct Hin as [root [files [file [Hwalk [Hfile [Hfont ->]]]]]].
  rewrite basename_join; [exact Hfont|]. now apply (Hplain root files file).
Qed.

Lemma replace_keeps_out (c a b : ascii) (s : string) :
  PyStr.mem c s = false -> Ascii.eqb b c = false ->
  PyStr.mem c (PyStr.replace a b s) = false.
Proof.
  intros Hs Hb. induction s as [|x s IH]; [reflexivity|].
  cbn [PyStr.mem PyStr.replace] in *. apply orb_false_iff in Hs as [Hx Hs].
  rewrite (IH Hs). destruct (Ascii.eqb x a); [now rewrite Hb|now rewrite Hx].
Qed.

Lemma replace_removes (a b : ascii) (s : string) :
  Ascii.eqb b a = false -> PyStr.mem a (PyStr.replace a b s) = false.
Proof.
  intros Hb. induction s as [|x s IH]; [reflexivity|].
  cbn [PyStr.mem PyStr.replace]. rewrite IH.
  destruct (Ascii.eqb x a) eqn:Hx; [now rewrite Hb|now rewrite Hx].
Qed.

(** X13.  The preview of a font is written directly in [font_previews],
    under the basename of the font with its spaces replaced and [.mp4]
    appended: the file name holds neither slash nor space, and two fonts
    of the same basename, wherever they are, share one output file. *)
Theorem output_file_is_flat (font : string) :
  output_file font
  = "font_previews/" ++ PyStr.replace " " "_" (OsPath.basename font) ++ ".mp4"
  /\ PyStr.mem "/" (PyStr.replace " " "_" (OsPath.basename font) ++ ".mp4") = false
  /\ PyStr.mem " " (PyStr.replace " " "_" (OsPath.basename font) ++ ".mp4") = false
  /\ (forall other, OsPath.basename other = OsPath.basename font ->
                    output_file other = output_file font).
Proof.
  assert (Hslash : PyStr.mem "/" (PyStr.replace " " "_" (OsPath.basename font)
                                  ++ ".mp4") = false).
  { rewrite mem_app, replace_keeps_out; auto using basename_no_slash. }
  split; [|split; [exact Hslash|split]].
  - unfold output_file, OsPath.join, output_dir.
    now rewrite (startswith_slash_mem _ Hslash).
  - rewrite mem_app, replace_removes; reflexivity.
  - intros other Hother. unfold output_file. now rewrite Hother.
Qed.

Lemma hd_split_no_sep (c : ascii) (s : string) :
  PyStr.mem c (hd EmptyString (PyStr.split c s)) = false.
Proof.
  induction s as [|a s IH]; [reflexivity|].
  cbn [PyStr.split]. destruct (Ascii.eqb a c) eqn:Ha; [reflexivity|].
  destruct (PyStr.split c s) as [|piece pieces]; cbn [hd PyStr.mem] in *.
  - now rewrite Ha.
  - now rewrite Ha, IH.
Qed.

Lemma hd_split_keeps_out (x c : ascii) (s : string) :
  PyStr.mem x s = false ->
  PyStr.mem x (hd EmptyString (PyStr.split c s)) = false.
Proof.
  induction s as [|a s IH]; [reflexivity|].
  cbn [PyStr.mem PyStr.split]. intros Hm. apply orb_false_iff in Hm as [Ha Hs].
  destruct (Ascii.eqb a c); [reflexivity|].
  specialize (IH Hs).
  destruct (PyStr.split c s) as [|piece pieces]; cbn [hd PyStr.mem] in *.
  - now rewrite Ha.
  - now rewrite Ha, IH.
Qed.

(** X14.  The display name holds neither dot nor slash; it is the whole
    basename when that has no dot, and it is empty when the basename
    starts with a dot. *)
Theorem font_name_is_plain (font_path : string) :
  PyStr.mem "." (font_name font_path) = false
  /\ PyStr.mem "/" (font_name font_path) = false
  /\ (PyStr.mem "." (OsPath.basename font_path) = false ->
      font_name font_path = OsPath.basename font_path)
  /\ (PyStr.startswith "." (OsPath.basename font_path) = true ->
      font_name font_path = EmptyString).
Proof.
  unfold font_name. split; [apply hd_split_no_sep|].
  split; [apply hd_split_keeps_out, basename_no_slash|]. split.
  - intros Hm. now rewrite split_no_sep.
  - destruct (OsPath.basename font_path) as [|c rest]; [discriminate|].
    cbn [PyStr.startswith PyStr.split]. rewrite andb_true_r, Ascii.eqb_sym.
    now intros ->.
Qed.

Lemma preview_loop_messages (fonts : list string) :
  (forall tr' message, stdout_ok tr' message = true) ->
  forall tr,
  exists delta,
    preview_loop fonts tr = (Ok tt, tr ++ delta)%list
    /\ created_messages delta
       = map (fun font => "Created preview for " ++ OsPath.basename font) fonts
    /\ List.length (failed_messages delta)
       = List.length (filter (fun run => negb (snd run)) (subprocesses delta)).
Proof.
  intros Hstdout. induction fonts as [|font rest IH]; intros tr.
  - exists []. rewrite app_nil_r. repeat split.
  - cbn [preview_loop]. unfold bind at 1.
    rewrite generate_preview_video_run by exact Hstdout.
    destruct (shell tr (preview_command font (output_file font))) eqn:Hsh.
    + unfold bind at 1, print at 1. rewrite Hstdout, <- app_assoc.
      destruct (IH (tr ++ [Subprocess (preview_command font (output_file font)) true]
                       ++ [Print ("Created preview for " ++ OsPath.basename font)])%list)
        as [delta [Hrun [Hcreated Hfailed]]].
      rewrite Hrun. eexists. split; [rewrite <- app_assoc; reflexivity|].
      split.
      * cbn [app]. unfold created_messages in *.
        cbn [prints flat_map app filter]. fold (prints delta).
        rewrite startswith_app. now rewrite Hcreated.
      * cbn [app]. unfold failed_messages in *.
        cbn [prints subprocesses flat_map app filter snd negb].
        fold (prints delta). fold (subprocesses delta).
        change (PyStr.startswith "Failed to create preview for "
                  ("Created preview for " ++ OsPath.basename font)) with false.
        exact Hfailed.
    + unfold bind at 1, print at 1. rewrite Hstdout, <- app_assoc.
      destruct (IH (tr ++ [Subprocess (preview_command font (output_file font)) false;
                           Print ("Failed to create preview for " ++ font_name font
                                  ++ ": "
                                  ++ exn_str (CalledProcessError
                                                (preview_command font (output_file font))))]
                       ++ [Print ("Created preview for " ++ OsPath.basename font)])%list)
        as [delta [Hrun [Hcreated Hfailed]]].
      rewrite Hrun. eexists. split; [rewrite <- app_assoc; reflexivity|].
      split.
      * cbn [app]. unfold created_messages in *.
        cbn [prints flat_map app filter]. fold (prints delta).
        change (PyStr.startswith "Created preview for "
                  ("Failed to create preview for " ++ ?x)) with false.
        cbv iota. rewrite startswith_app. now rewrite Hcreated.
      * cbn [app]. unfold failed_messages in *.
        cbn [prints subprocesses flat_map app filter snd negb].
        fold (prints delta). fold (subprocesses delta).
        rewrite startswith_app.
        change (PyStr.startswith "Failed to create preview for "
                  ("Created preview for " ++ OsPath.basename font)) with false.
        cbn [List.length]. now rewrite Hfailed.
Qed.

(** X15.  Once the output directory is there, and as long as the messages
    can be printed, [Created preview for ...] is printed for every font,
    in order, also for those whose command failed; and there are as many
    [Failed to create preview for ...] messages as failed commands. *)
Theorem created_is_printed_for_every_font :
  mkdir_ok output_dir = true ->
  (forall tr message, stdout_ok tr message = true) ->
  created_messages (snd (main []))
  = map (fun font => "Created preview for " ++ OsPath.basename font)
        (list_fonts font_dir)
  /\ List.length (failed_messages (snd (main [])))
     = List.length (filter (fun run => negb (snd run))
                           (subprocesses (snd (main [])))).
Proof.
  intros Hdir Hstdout.
  destruct (preview_loop_messages (list_fonts font_dir) Hstdout
              [Mkdir output_dir])
    as [delta [Hrun [Hcreated Hfailed]]].
  assert (Hmain : main [] = (Ok tt, Mkdir output_dir :: delta)).
  { unfold main, bind, mkdir. rewrite Hdir. cbn [app]. now rewrite Hrun. }
  rewrite Hmain. cbn [snd]. split; [exact Hcreated|exact Hfailed].
Qed.

End PreviewMore.

(** ** The further properties at work on the reference world *)


Lemma parse_text_file_first_error_witness :
  @AddTextToVid.parse_text_file Reference.builtins
    (Reference.world Reference.never) "short-row.csv" []
  = (Raise (RuntimeError
              "Error parsing text file: not enough values to unpack (expected 7, got 3)"),
     [LogError
        "Failed to parse text file: not enough values to unpack (expected 7, got 3)"]).
Proof.
  apply (@parse_text_file_first_error Reference.builtins
           (Reference.world Reference.never) "short-row.csv"
           [["00:00:00"; "00:00:05"; "Hello"; "10"; "20"; "Arial"; "24"]] []
           ["00:00:05"; "00:00:09"; "World"] (ValueError_unpack 3) []).
  - reflexivity.
  - intros row [<-|[]]. eexists. reflexivity.
  - reflexivity.
Defined.

Lemma main_stops_at_first_failure_witness :
  List.length
    (subprocesses
       (snd (@AddTextToVid.main Reference.builtins
               (Reference.world Reference.second_step)
               "in.mp4" "two.csv" "out.mp4" []))) = 3.
Proof.
  apply (@main_stops_at_first_failure Reference.builtins
           (Reference.world Reference.second_step)
           "in.mp4" "two.csv" "out.mp4" 2
           match @AddTextToVid.generate_ffmpeg_command Reference.builtins
                   "/tmp/tmpk3x9/temp_0.mp4" "/tmp/tmpk3x9/text_1.txt"
                   Reference.later "/tmp/tmpk3x9/temp_1.mp4"
           with
           | Ok command => command
           | Raise _ => EmptyString
           end).
  reflexivity.
Defined.

Lemma failed_copy_raises_witness :
  exit_status
    (fst (@AddTextToVid.main Reference.builtins
            (Examples.world Examples.copy_of_input)
            "in.mp4" "two.csv" "out.mp4" [])) = 1%Z.
Proof.
  apply (@failed_copy_raises Reference.builtins
           (Examples.world Examples.copy_of_input)
           "in.mp4" "two.csv" "out.mp4" "cp in.mp4 /tmp/tmpk3x9/temp.mp4").
  left. reflexivity.
Defined.

Lemma bad_timestamp_surfaces_at_its_step_witness :
  (exists bad,
      fst (@AddTextToVid.main Reference.builtins
             (Examples.world Reference.never)
             "in.mp4" "bad-time.csv" "out.mp4" [])
      = Raise (ValueError_float bad))
  /\ List.length
       (ffmpeg_invocations
          (snd (@AddTextToVid.main Reference.builtins
                  (Examples.world Reference.never)
                  "in.mp4" "bad-time.csv" "out.mp4" []))) = 1
  /\ file_writes
       (snd (@AddTextToVid.main Reference.builtins
               (Examples.world Reference.never)
               "in.mp4" "bad-time.csv" "out.mp4" []))
     = [("/tmp/tmpk3x9/text_0.txt", "Hello");
        ("/tmp/tmpk3x9/text_1.txt", "World")].
Proof.
  destruct (@bad_timestamp_surfaces_at_its_step Reference.builtins
              (Examples.world Reference.never)
              "in.mp4" "bad-time.csv" "out.mp4"
              [Reference.hello] [] Examples.mistimed)
    as [Hbad [_ [_ [Hruns [Hfiles _]]]]].
  - reflexivity.
  - reflexivity.
  - intros b [<-|[]]. eexists; eexists; split; reflexivity.
  - intros [s [e [Hs _]]]. discriminate Hs.
  - split; [exact Hbad|]. split; [exact Hruns|exact Hfiles].
Defined.

Lemma text_files_hold_the_texts_witness :
  exists n,
    n <= 2
    /\ file_writes
         (snd (@AddTextToVid.main Reference.builtins
                 (Reference.world Reference.second_step)
                 "in.mp4" "two.csv" "out.mp4" []))
       = firstn n [("/tmp/tmpk3x9/text_0.txt", "Hello");
                   ("/tmp/tmpk3x9/text_1.txt", "World")].
Proof.
  destruct (@text_files_hold_the_texts Reference.builtins
              (Reference.world Reference.second_step)
              "in.mp4" "two.csv" "out.mp4" [Reference.hello; Reference.later])
    as [[n [Hn [Hfiles _]]] _].
  - reflexivity.
  - exists n. split; [exact Hn|exact Hfiles].
Defined.


Lemma created_is_printed_for_every_font_witness :
  created_messages
    (snd (@PreviewFonts.main Reference.builtins
            (Reference.world Examples.mono) []))
  = ["Created preview for DejaVuSans.ttf";
     "Created preview for DejaVu Sans Mono.ttf";
     "Created preview for Noto.Sans.otf"]
  /\ List.length
       (failed_messages
          (snd (@PreviewFonts.main Reference.builtins
                  (Reference.world Examples.mono) []))) = 1.
Proof.
  destruct (@created_is_printed_for_every_font Reference.builtins
              (Reference.world Examples.mono) eq_refl (fun _ _ => eq_refl))
    as [Hcreated Hfailed].
  split; [exact Hcreated|]. rewrite Hfailed. reflexivity.
Defined.
